(** * Vertex AI adapter (langfun/core/llms/vertexai.py)

    A shallow embedding of the [VertexAI] language-model adapter and of the
    module-level model hub, followed by the properties of the adapter that
    its specification states.

    Python objects are records and [None]-able fields are [option]s.  The
    registry literal is an association list; the hub's caches and the
    environment are finite maps.  Exceptions are an [outcome] carrying the
    raised [exn], and the mutable process state the module touches
    (environment variables, the global hub, the calls made into the Vertex
    AI SDK, the shared executors) is an explicit [World] threaded through a
    small state-and-exception monad. *)

From Stdlib Require Import ZArith String Floats.SpecFloat.
From stdpp Require Import base strings gmap list pretty.

Local Open Scope Z_scope.
Local Open Scope string_scope.

(** ** Python exceptions and outcomes *)

Inductive exn : Type :=
| ValueError (msg : string)
| KeyError (key : string)
| AssertionError (msg : string)
| ProviderError (detail : string).

Inductive outcome (A : Type) : Type :=
| Return (a : A)
| Raise (e : exn).
Arguments Return {A} a.
Arguments Raise {A} e.

(** Python truthiness of a [str | None] value, and the value of [a or b]
    given the value [b] would have. *)
Definition truthy (v : option string) : bool :=
  match v with
  | Some s => negb (String.eqb s "")
  | None => false
  end.

Definition py_or (a b : option string) : option string :=
  if truthy a then a else b.

(** ** The static model registry *)

Record ModelSetting : Type := { api : string; rpm : Z }.

Definition SUPPORTED_MODELS_AND_SETTINGS : list (string * ModelSetting) :=
  [ ("gemini-1.5-pro-preview-0409", {| api := "gemini"; rpm := 5 |});
    ("gemini-1.0-pro", {| api := "gemini"; rpm := 300 |});
    ("gemini-1.0-pro-vision", {| api := "gemini"; rpm := 100 |});
    ("text-bison", {| api := "palm"; rpm := 1600 |});
    ("text-bison-32k", {| api := "palm"; rpm := 300 |});
    ("text-unicorn", {| api := "palm"; rpm := 100 |}) ].

(** [d[key]] on a dict literal: the entry if there is one. *)
Fixpoint dict_get {V : Type} (d : list (string * V)) (key : string) : option V :=
  match d with
  | [] => None
  | (k, v) :: rest => if String.eqb k key then Some v else dict_get rest key
  end.

Definition dict_keys {V : Type} (d : list (string * V)) : list string :=
  map fst d.

(** ** Data exchanged with the caller *)

(** A piece of a chunked prompt: plain text, an image, or an object of
    another modality class (identified here by what distinguishes it). *)
Inductive lf_chunk : Type :=
| StrChunk (s : string)
| ImageChunk (bytes : list Byte.byte)
| OtherModality (kind : string) (payload : list Byte.byte).

(** A prompt message: its text and the result of its [chunk()] method. *)
Record Message : Type := { text : string; chunk : list lf_chunk }.

Record AIMessage : Type := { ai_text : string }.

(** The sampling options and results of [langfun.core], with the fields
    this module reads and writes. *)
Record LMSamplingOptions : Type := {
  temperature : spec_float;
  max_tokens : option Z;
  n : Z;
  top_k : option Z;
  top_p : option spec_float;
  stop : option (list string)
}.

Record LMSamplingUsage : Type := {
  prompt_tokens : Z;
  completion_tokens : Z;
  total_tokens : Z
}.

Record LMSample : Type := { response : AIMessage; score : spec_float }.

Record LMSamplingResult : Type := {
  samples : list LMSample;
  usage : option LMSamplingUsage
}.

(** The float literal [0.0]. *)
Definition float_zero : spec_float := S754_zero false.

(** ** Data exchanged with the Vertex AI SDK *)

Record Credentials : Type := { credentials_id : nat }.

(** Content parts accepted by [GenerativeModel.generate_content]. *)
Inductive Part : Type :=
| TextPart (s : string)
| Image_from_bytes (bytes : list Byte.byte).

Record GenerationConfig : Type := {
  gc_temperature : spec_float;
  gc_top_p : option spec_float;
  gc_top_k : option Z;
  gc_max_output_tokens : option Z;
  gc_stop_sequences : option (list string)
}.

Record PredictOptions : Type := {
  po_temperature : spec_float;
  po_top_k : option Z;
  po_top_p : option spec_float;
  po_max_output_tokens : option Z;
  po_stop_sequences : option (list string)
}.

Record UsageMetadata : Type := {
  prompt_token_count : Z;
  candidates_token_count : Z;
  total_token_count : Z
}.

Record GenerationResponse : Type := {
  gr_text : string;
  usage_metadata : UsageMetadata
}.

Record TextGenerationResponse : Type := { tr_text : string }.

(** Model handles.  The object identity [oid] tells two handles for the
    same model apart, as [is] does in Python. *)
Record GenerativeModel : Type := { gm_model_name : string; gm_oid : nat }.
Record TextGenerationModel : Type := { tm_model_id : string; tm_oid : nat }.

(** Calls made into the SDK, in the order they happen. *)
Inductive sdk_call : Type :=
| vertexai_init (project location : string) (credentials : option Credentials)
| GenerativeModel_new (model_id : string) (oid : nat)
| TextGenerationModel_from_pretrained (model_id : string) (oid : nat)
| generate_content (model : GenerativeModel) (contents : list Part)
    (generation_config : GenerationConfig)
| predict (model : TextGenerationModel) (prompt : string) (options : PredictOptions).

(** ** Process state *)

Record _ModelHub : Type := {
  _generative_model_cache : gmap string GenerativeModel;
  _text_generation_model_cache : gmap string TextGenerationModel
}.

(** [_ModelHub.__init__] *)
Definition _ModelHub_init : _ModelHub :=
  {| _generative_model_cache := ∅; _text_generation_model_cache := ∅ |}.

(** What the module reads and writes outside its own instances: the
    environment variables, the global hub, the supply of object
    identities, the calls made into the SDK and the uses made of the
    shared executors (resource key and worker bound of each). *)
Record World : Type := {
  environ : gmap string string;
  _VERTEXAI_MODEL_HUB : _ModelHub;
  next_oid : nat;
  sdk_calls : list sdk_call;
  executor_uses : list (string * Z)
}.

(** The process right after the module is imported. *)
Definition World_at_import (env : gmap string string) : World :=
  {| environ := env; _VERTEXAI_MODEL_HUB := _ModelHub_init;
     next_oid := 0%nat; sdk_calls := []; executor_uses := [] |}.

(** ** Computations that read and write the world and may raise *)

Definition Py (A : Type) : Type := World → outcome A * World.

Definition ret {A : Type} (a : A) : Py A := λ w, (Return a, w).
Definition raise {A : Type} (e : exn) : Py A := λ w, (Raise e, w).
Definition bind {A B : Type} (c : Py A) (k : A → Py B) : Py B :=
  λ w, match c w with
       | (Return a, w') => k a w'
       | (Raise e, w') => (Raise e, w')
       end.
Definition lift {A : Type} (o : outcome A) : Py A := λ w, (o, w).

#[global] Instance Py_ret : MRet Py := @ret.
#[global] Instance Py_bind : MBind Py := λ A B k c, bind c k.

Definition get_world : Py World := λ w, (Return w, w).
Definition put_world (w' : World) : Py unit := λ _, (Return tt, w').

(** Record that the SDK was called. *)
Definition sdk (c : sdk_call) : Py unit :=
  w ← get_world;
  put_world {| environ := environ w; _VERTEXAI_MODEL_HUB := _VERTEXAI_MODEL_HUB w;
               next_oid := next_oid w; sdk_calls := sdk_calls w ++ [c];
               executor_uses := executor_uses w |}.

(** [os.environ.get(name, None)] *)
Definition os_environ_get (name : string) : Py (option string) :=
  w ← get_world; mret (environ w !! name).

(** [a or b]: [b] is evaluated only when [a] is falsy. *)
Definition py_or_else (a : option string) (b : Py (option string))
  : Py (option string) :=
  if truthy a then mret a else b.

(** The identity of a newly created object. *)
Definition new_oid : Py nat :=
  w ← get_world;
  _ ← put_world {| environ := environ w; _VERTEXAI_MODEL_HUB := _VERTEXAI_MODEL_HUB w;
                   next_oid := S (next_oid w); sdk_calls := sdk_calls w;
                   executor_uses := executor_uses w |};
  mret (next_oid w).

Definition get_hub : Py _ModelHub :=
  w ← get_world; mret (_VERTEXAI_MODEL_HUB w).

Definition put_hub (h : _ModelHub) : Py unit :=
  w ← get_world;
  put_world {| environ := environ w; _VERTEXAI_MODEL_HUB := h;
               next_oid := next_oid w; sdk_calls := sdk_calls w;
               executor_uses := executor_uses w |}.

Definition use_executor (key : string) (workers : Z) : Py unit :=
  w ← get_world;
  put_world {| environ := environ w; _VERTEXAI_MODEL_HUB := _VERTEXAI_MODEL_HUB w;
               next_oid := next_oid w; sdk_calls := sdk_calls w;
               executor_uses := executor_uses w ++ [(key, workers)] |}.

(** ** The adapter *)

(** An instance of [VertexAI]: its symbolic fields, the sampling options it
    inherits from [lf.LanguageModel], and the slot of its [__dict__] in
    which [functools.cached_property] keeps [_api_initialized]. *)
Record VertexAI : Type := {
  model : string;
  project : option string;
  location : option string;
  credentials : option Credentials;
  multimodal : bool;
  sampling_options : LMSamplingOptions;
  cached_api_initialized : option bool
}.

Definition set_cached_api_initialized (self : VertexAI) (v : option bool) : VertexAI :=
  {| model := model self; project := project self; location := location self;
     credentials := credentials self; multimodal := multimodal self;
     sampling_options := sampling_options self;
     cached_api_initialized := v |}.

(** The [model] field is declared as an enum over the registry's keys, so
    construction accepts a model identifier only if it is one of them. *)
Definition model_accepted (m : string) : bool :=
  bool_decide (m ∈ dict_keys SUPPORTED_MODELS_AND_SETTINGS).

Definition VertexAI_new (m : string) (proj loc : option string)
    (cred : option Credentials) (mm : bool) (opts : LMSamplingOptions)
  : option VertexAI :=
  if model_accepted m then
    Some {| model := m; project := proj; location := loc; credentials := cred;
            multimodal := mm; sampling_options := opts;
            cached_api_initialized := None |}
  else None.

(** The named variants: subclasses that give [model], and for some
    [multimodal], a default value.  The caller may still pass either
    ([None] here stands for an argument left out). *)
Definition VertexAIGeminiPro1_5 (m : option string) (proj loc : option string)
    (cred : option Credentials) (mm : option bool) (opts : LMSamplingOptions)
  : option VertexAI :=
  VertexAI_new (default "gemini-1.5-pro-preview-0409" m) proj loc cred
    (default true mm) opts.

Definition VertexAIGeminiPro1 (m : option string) (proj loc : option string)
    (cred : option Credentials) (mm : option bool) (opts : LMSamplingOptions)
  : option VertexAI :=
  VertexAI_new (default "gemini-1.0-pro" m) proj loc cred (default false mm) opts.

Definition VertexAIGeminiPro1Vision (m : option string) (proj loc : option string)
    (cred : option Credentials) (mm : option bool) (opts : LMSamplingOptions)
  : option VertexAI :=
  VertexAI_new (default "gemini-1.0-pro-vision" m) proj loc cred
    (default true mm) opts.

Definition VertexAIPalm2 (m : option string) (proj loc : option string)
    (cred : option Credentials) (mm : option bool) (opts : LMSamplingOptions)
  : option VertexAI :=
  VertexAI_new (default "text-bison" m) proj loc cred (default false mm) opts.

Definition VertexAIPalm2_32K (m : option string) (proj loc : option string)
    (cred : option Credentials) (mm : option bool) (opts : LMSamplingOptions)
  : option VertexAI :=
  VertexAI_new (default "text-bison-32k" m) proj loc cred (default false mm) opts.

(** [_on_bound]: [self.__dict__.pop('_api_initialized', None)] *)
Definition _on_bound (self : VertexAI) : VertexAI :=
  set_cached_api_initialized self None.

Definition project_missing_message : string :=
  "Please specify `project` during `__init__` or set environment " +:+
  "variable `VERTEXAI_PROJECT` with your Vertex AI project ID.".

Definition location_missing_message : string :=
  "Please specify `location` during `__init__` or set environment " +:+
  "variable `VERTEXAI_LOCATION` with your Vertex AI service location.".

(** The body of the [_api_initialized] property. *)
Definition _api_initialized_body (self : VertexAI) : Py bool :=
  project ← py_or_else (project self) (os_environ_get "VERTEXAI_PROJECT");
  if negb (truthy project) then raise (ValueError project_missing_message)
  else
    location ← py_or_else (location self) (os_environ_get "VERTEXAI_LOCATION");
    if negb (truthy location) then raise (ValueError location_missing_message)
    else
      _ ← sdk (vertexai_init (default "" project) (default "" location)
                 (credentials self));
      mret true.

(** Reading [self._api_initialized]: [functools.cached_property] returns the
    value stored in the instance's [__dict__] if there is one; otherwise it
    runs the body and stores what the body returns.  When the body raises,
    nothing is stored. *)
Definition _api_initialized (self : VertexAI) (w : World)
  : outcome bool * VertexAI * World :=
  match cached_api_initialized self with
  | Some v => (Return v, self, w)
  | None =>
      match _api_initialized_body self w with
      | (Return v, w') => (Return v, set_cached_api_initialized self (Some v), w')
      | (Raise e, w') => (Raise e, self, w')
      end
  end.

(** [model_id] and [resource_id] *)
Definition model_id (self : VertexAI) : string :=
  "VertexAI(" +:+ model self +:+ ")".

Definition resource_id (self : VertexAI) : string := model_id self.

(** [_generation_config] *)
Definition _generation_config (options : LMSamplingOptions) : GenerationConfig :=
  {| gc_temperature := temperature options;
     gc_top_p := top_p options;
     gc_top_k := top_k options;
     gc_max_output_tokens := max_tokens options;
     gc_stop_sequences := stop options |}.

(** [_generation_response_to_message] *)
Definition _generation_response_to_message (response : GenerationResponse) : AIMessage :=
  {| ai_text := gr_text response |}.

(** ** The model hub *)

(** [generative_models.GenerativeModel(model_id)]: a new handle, with an
    object identity no earlier object has. *)
Definition GenerativeModel_ctor (model_id : string) : Py GenerativeModel :=
  oid ← new_oid;
  _ ← sdk (GenerativeModel_new model_id oid);
  mret {| gm_model_name := model_id; gm_oid := oid |}.

(** [language_models.TextGenerationModel.from_pretrained(model_id)] *)
Definition TextGenerationModel_ctor (model_id : string) : Py TextGenerationModel :=
  oid ← new_oid;
  _ ← sdk (TextGenerationModel_from_pretrained model_id oid);
  mret {| tm_model_id := model_id; tm_oid := oid |}.

(** [self._generative_model_cache[model_id] = model] *)
Definition store_generative_model (model_id : string) (model : GenerativeModel) : Py unit :=
  hub ← get_hub;
  put_hub {| _generative_model_cache :=
               <[model_id := model]> (_generative_model_cache hub);
             _text_generation_model_cache := _text_generation_model_cache hub |}.

(** [self._text_generation_model_cache[model_id] = model] *)
Definition store_text_generation_model (model_id : string)
    (model : TextGenerationModel) : Py unit :=
  hub ← get_hub;
  put_hub {| _generative_model_cache := _generative_model_cache hub;
             _text_generation_model_cache :=
               <[model_id := model]> (_text_generation_model_cache hub) |}.

(** [_ModelHub.get_generative_model], on the global hub *)
Definition get_generative_model (model_id : string) : Py GenerativeModel :=
  hub ← get_hub;
  match _generative_model_cache hub !! model_id with
  | Some model => mret model
  | None =>
      model ← GenerativeModel_ctor model_id;
      _ ← store_generative_model model_id model;
      mret model
  end.

(** [_ModelHub.get_text_generation_model], on the global hub *)
Definition get_text_generation_model (model_id : string) : Py TextGenerationModel :=
  hub ← get_hub;
  match _text_generation_model_cache hub !! model_id with
  | Some model => mret model
  | None =>
      model ← TextGenerationModel_ctor model_id;
      _ ← store_text_generation_model model_id model;
      mret model
  end.

(** ** The concurrent executor *)

Section executor.
Context {A B : Type}.

(** The dispatched calls complete one after the other, in the order
    [completion_order] lists their positions; each stores what it
    returned or raised in the slot of its own position.  A position the
    inputs do not have, or whose call has already completed, is skipped. *)
Fixpoint run_tasks (func : A → Py B) (parallel_inputs : list A)
    (completion_order : list nat) (slots : list (option (outcome B)))
    (w : World) : list (option (outcome B)) * World :=
  match completion_order with
  | [] => (slots, w)
  | i :: later =>
      match parallel_inputs !! i, slots !! i with
      | Some x, Some None =>
          let '(o, w') := func x w in
          run_tasks func parallel_inputs later (<[i := Some o]> slots) w'
      | _, _ => run_tasks func parallel_inputs later slots w
      end
  end.

(** The slots are read in input order: the results up to the first
    position that raised, whose exception is raised to the caller.  While
    a position before that is still pending there is no result yet. *)
Fixpoint gather (slots : list (option (outcome B))) : option (outcome (list B)) :=
  match slots with
  | [] => Some (Return [])
  | None :: _ => None
  | Some (Raise e) :: _ => Some (Raise e)
  | Some (Return b) :: rest =>
      match gather rest with
      | Some (Return bs) => Some (Return (b :: bs))
      | other => other
      end
  end.

(** Modelled from the spec: [lf.concurrent_execute] is defined in
    langfun/core/concurrent.py, outside the adapter's file.  The spec
    gives its contract: it runs [func] on every input through a shared
    executor named by a resource key and bounded by [max_workers],
    associates each result with the position of its input whatever the
    order of completion, returns the results in input order, and lets an
    error of a call reach the caller without aborting the sibling calls.
    Here the calls are atomic steps taken in [completion_order]; the
    answer is [None] when that order leaves a needed call pending.  This
    is the executor as called with [retry_on_errors=None], the only way
    the adapter calls it: no call is ever repeated. *)
Definition concurrent_execute (func : A → Py B) (parallel_inputs : list A)
    (executor : string) (max_workers : Z)
    (completion_order : list nat) (w : World)
  : option (outcome (list B)) * World :=
  let '(_, w0) := use_executor executor max_workers w in
  let '(slots, w') :=
    run_tasks func parallel_inputs completion_order
      (replicate (length parallel_inputs) None) w0 in
  (gather slots, w').
End executor.

(** ** Reading messages, logs and the hub *)

(** [needle in haystack] on strings. *)
Fixpoint occurs_in (needle haystack : string) : bool :=
  String.prefix needle haystack
  || match haystack with
     | EmptyString => false
     | String _ rest => occurs_in needle rest
     end.

(** A value a field or an environment variable resolves to: the field's
    own when it is a non-empty string, else the variable's when that is a
    non-empty string. *)
Definition resolves_to (field env_value : option string) (v : string) : Prop :=
  v ≠ "" ∧
  (field = Some v ∨ ((field = None ∨ field = Some "") ∧ env_value = Some v)).

Definition unresolved (field env_value : option string) : Prop :=
  ∀ v, ¬ resolves_to field env_value v.

Definition is_GenerativeModel_new (model_id : string) (c : sdk_call) : bool :=
  match c with
  | GenerativeModel_new m _ => String.eqb m model_id
  | _ => false
  end.

Definition is_from_pretrained (model_id : string) (c : sdk_call) : bool :=
  match c with
  | TextGenerationModel_from_pretrained m _ => String.eqb m model_id
  | _ => false
  end.

(** How many handles were constructed for a model identifier, per API. *)
Definition generative_models_built (model_id : string) (w : World) : nat :=
  length (filter (λ c, is_GenerativeModel_new model_id c = true) (sdk_calls w)).

Definition text_generation_models_built (model_id : string) (w : World) : nat :=
  length (filter (λ c, is_from_pretrained model_id c = true) (sdk_calls w)).

(** Every handle built is the one the hub holds. *)
Definition hub_accounted (w : World) : Prop :=
  ∀ model_id,
    generative_models_built model_id w
    = match _generative_model_cache (_VERTEXAI_MODEL_HUB w) !! model_id with
      | Some _ => 1%nat
      | None => 0%nat
      end
    ∧ text_generation_models_built model_id w
      = match _text_generation_model_cache (_VERTEXAI_MODEL_HUB w) !! model_id with
        | Some _ => 1%nat
        | None => 0%nat
        end.

(** The hub of [w'] holds every handle the hub of [w] holds. *)
Definition hub_kept (w w' : World) : Prop :=
  (∀ model_id h,
     _generative_model_cache (_VERTEXAI_MODEL_HUB w) !! model_id = Some h →
     _generative_model_cache (_VERTEXAI_MODEL_HUB w') !! model_id = Some h)
  ∧ (∀ model_id h,
       _text_generation_model_cache (_VERTEXAI_MODEL_HUB w) !! model_id = Some h →
       _text_generation_model_cache (_VERTEXAI_MODEL_HUB w') !! model_id = Some h).

(** [w'] is a later state of the process that was in [w], as far as the
    adapter's own operations can change it. *)
Record later (w w' : World) : Prop := {
  later_hub : hub_kept w w';
  later_accounted : hub_accounted w → hub_accounted w';
  later_calls : ∃ more, sdk_calls w' = (sdk_calls w ++ more)%list
}.

(** A computation that only moves the process forward, and uses no
    executor. *)
Definition forward {A : Type} (c : Py A) : Prop :=
  ∀ w, later w (c w).2 ∧ executor_uses (c w).2 = executor_uses w.

(** The handle a lookup in the hub yields: the cached one, or the one that
    would be built now. *)
Definition generative_model_for (model_id : string) (w : World) : GenerativeModel :=
  match _generative_model_cache (_VERTEXAI_MODEL_HUB w) !! model_id with
  | Some h => h
  | None => {| gm_model_name := model_id; gm_oid := next_oid w |}
  end.

Definition text_generation_model_for (model_id : string) (w : World)
  : TextGenerationModel :=
  match _text_generation_model_cache (_VERTEXAI_MODEL_HUB w) !! model_id with
  | Some h => h
  | None => {| tm_model_id := model_id; tm_oid := next_oid w |}
  end.

(** [sequence] of outcomes: all the values, or the first exception. *)
Fixpoint collect {B : Type} (os : list (outcome B)) : outcome (list B) :=
  match os with
  | [] => Return []
  | Raise e :: _ => Raise e
  | Return b :: rest =>
      match collect rest with
      | Return bs => Return (b :: bs)
      | Raise e => Raise e
      end
  end.

(** Counting the calls made into the SDK: initializations of the SDK and
    requests sent to a model. *)
Definition is_vertexai_init (c : sdk_call) : bool :=
  match c with
  | vertexai_init _ _ _ => true
  | _ => false
  end.

Definition is_provider_request (c : sdk_call) : bool :=
  match c with
  | generate_content _ _ _ | predict _ _ _ => true
  | _ => false
  end.

Definition sdk_initializations (w : World) : nat :=
  length (filter (λ c, is_vertexai_init c = true) (sdk_calls w)).

Definition provider_requests (w : World) : nat :=
  length (filter (λ c, is_provider_request c = true) (sdk_calls w)).

(** The hub's handles are filed under their own model identifier, are
    objects that already exist, and are pairwise distinct objects. *)
Record hub_well_formed (w : World) : Prop := {
  generative_named : ∀ m h,
    _generative_model_cache (_VERTEXAI_MODEL_HUB w) !! m = Some h →
    gm_model_name h = m ∧ (gm_oid h < next_oid w)%nat;
  text_generation_named : ∀ m h,
    _text_generation_model_cache (_VERTEXAI_MODEL_HUB w) !! m = Some h →
    tm_model_id h = m ∧ (tm_oid h < next_oid w)%nat;
  generative_distinct : ∀ m m' h h',
    _generative_model_cache (_VERTEXAI_MODEL_HUB w) !! m = Some h →
    _generative_model_cache (_VERTEXAI_MODEL_HUB w) !! m' = Some h' →
    gm_oid h = gm_oid h' → m = m';
  text_generation_distinct : ∀ m m' h h',
    _text_generation_model_cache (_VERTEXAI_MODEL_HUB w) !! m = Some h →
    _text_generation_model_cache (_VERTEXAI_MODEL_HUB w) !! m' = Some h' →
    tm_oid h = tm_oid h' → m = m';
  families_distinct : ∀ m m' h h',
    _generative_model_cache (_VERTEXAI_MODEL_HUB w) !! m = Some h →
    _text_generation_model_cache (_VERTEXAI_MODEL_HUB w) !! m' = Some h' →
    gm_oid h ≠ tm_oid h'
}.

(** A computation that keeps a property of the process. *)
Definition keeps {A : Type} (P : World → Prop) (c : Py A) : Prop :=
  ∀ w, P w → P (c w).2.

(** ** Sample data *)

Definition demo_options (samples_wanted : Z) : LMSamplingOptions :=
  {| temperature := S754_zero false; max_tokens := Some 64; n := samples_wanted;
     top_k := Some 40; top_p := None; stop := None |}.

Definition demo_adapter (m : string) (mm : bool) (samples_wanted : Z) : VertexAI :=
  {| model := m; project := Some "my-project"; location := Some "us-central1";
     credentials := None; multimodal := mm;
     sampling_options := demo_options samples_wanted;
     cached_api_initialized := None |}.

Definition demo_unconfigured (m : string) : VertexAI :=
  {| model := m; project := None; location := None;
     credentials := None; multimodal := false;
     sampling_options := demo_options 1;
     cached_api_initialized := None |}.

Definition demo_environ : gmap string string :=
  <["VERTEXAI_PROJECT" := "my-project"]>
    (<["VERTEXAI_LOCATION" := "us-central1"]> ∅).

Definition demo_repr (c : lf_chunk) : string :=
  match c with
  | StrChunk s => s
  | ImageChunk _ => "Image(...)"
  | OtherModality kind _ => kind +:+ "(...)"
  end.

(** A provider that echoes: it answers with the text parts it was sent. *)
Definition demo_part_text (p : Part) : string :=
  match p with
  | TextPart s => s
  | Image_from_bytes _ => "<image>"
  end.

Definition demo_generate_content (model : GenerativeModel) (contents : list Part)
    (config : GenerationConfig) : string + GenerationResponse :=
  inr {| gr_text := String.concat "" (map demo_part_text contents);
         usage_metadata := {| prompt_token_count := 3;
                              candidates_token_count := 4;
                              total_token_count := 7 |} |}.

Definition demo_predict (model : TextGenerationModel) (prompt : string)
    (options : PredictOptions) : string + TextGenerationResponse :=
  inr {| tr_text := prompt |}.

(** One conversion from a request rate to a number of workers. *)
Definition demo_rate_to_max_concurrency (requests_per_min tokens_per_min : Z) : Z :=
  Z.max (requests_per_min / 60) 1.

Definition demo_prompt (s : string) : Message :=
  {| text := s; chunk := [StrChunk s] |}.

Definition demo_image_prompt : Message :=
  {| text := "what is this?";
     chunk := [StrChunk "what is this?"; ImageChunk [Byte.x89; Byte.x50]] |}.

(** ** Sampling *)

Section sampling.

(** What the adapter calls but does not define. *)

(** [repr] of a prompt chunk, as [{lf_chunk!r}] formats it. *)
Variable repr : lf_chunk → string.

(** The provider's answer to a [generate_content] request and to a
    [predict] request: a response, or the detail of the error raised. *)
Variable provider_generate_content :
  GenerativeModel → list Part → GenerationConfig → string + GenerationResponse.
Variable provider_predict :
  TextGenerationModel → string → PredictOptions → string + TextGenerationResponse.

(** [lf.LanguageModel.rate_to_max_concurrency], inherited from the base
    class, applied to [requests_per_min] and [tokens_per_min]. *)
Variable rate_to_max_concurrency : Z → Z → Z.

(** [max_concurrency] *)
Definition max_concurrency (self : VertexAI) : outcome Z :=
  match dict_get SUPPORTED_MODELS_AND_SETTINGS (model self) with
  | Some setting => Return (rate_to_max_concurrency (rpm setting) 0)
  | None => Raise (KeyError (model self))
  end.

Definition unsupported_modality (lf_chunk : lf_chunk) : exn :=
  ValueError ("Unsupported modality: " +:+ repr lf_chunk).

(** The loop of [_content_from_message], from the chunks still to visit
    and the provider chunks collected so far. *)
Fixpoint content_loop (self : VertexAI) (lf_chunks : list lf_chunk)
    (chunks : list Part) : outcome (list Part) :=
  match lf_chunks with
  | [] => Return chunks
  | lf_chunk :: rest =>
      match lf_chunk with
      | StrChunk s => content_loop self rest (chunks ++ [TextPart s])
      | ImageChunk bytes =>
          if multimodal self
          then content_loop self rest (chunks ++ [Image_from_bytes bytes])
          else Raise (unsupported_modality lf_chunk)
      | OtherModality _ _ => Raise (unsupported_modality lf_chunk)
      end
  end.

(** [_content_from_message] *)
Definition _content_from_message (self : VertexAI) (prompt : Message)
  : outcome (list Part) :=
  content_loop self (chunk prompt) [].

(** [model.generate_content(input_content, generation_config=...)] *)
Definition call_generate_content (model : GenerativeModel)
    (input_content : list Part) (config : GenerationConfig) : Py GenerationResponse :=
  _ ← sdk (generate_content model input_content config);
  match provider_generate_content model input_content config with
  | inr response => mret response
  | inl detail => raise (ProviderError detail)
  end.

(** [model.predict(prompt.text, **predict_options)] *)
Definition call_predict (model : TextGenerationModel) (prompt_text : string)
    (options : PredictOptions) : Py TextGenerationResponse :=
  _ ← sdk (predict model prompt_text options);
  match provider_predict model prompt_text options with
  | inr response => mret response
  | inl detail => raise (ProviderError detail)
  end.

(** [_sample_generative_model] *)
Definition _sample_generative_model (self : VertexAI) (prompt : Message)
  : Py LMSamplingResult :=
  model ← get_generative_model (model self);
  input_content ← lift (_content_from_message self prompt);
  response ← call_generate_content model input_content
               (_generation_config (sampling_options self));
  let usage_metadata := usage_metadata response in
  let usage :=
    {| prompt_tokens := prompt_token_count usage_metadata;
       completion_tokens := candidates_token_count usage_metadata;
       total_tokens := total_token_count usage_metadata |} in
  mret {| samples := [ {| response := _generation_response_to_message response;
                          score := float_zero |} ];
          usage := Some usage |}.

(** [_sample_text_generation_model] *)
Definition _sample_text_generation_model (self : VertexAI) (prompt : Message)
  : Py LMSamplingResult :=
  model ← get_text_generation_model (model self);
  let predict_options :=
    {| po_temperature := temperature (sampling_options self);
       po_top_k := top_k (sampling_options self);
       po_top_p := top_p (sampling_options self);
       po_max_output_tokens := max_tokens (sampling_options self);
       po_stop_sequences := stop (sampling_options self) |} in
  response ← call_predict model (text prompt) predict_options;
  mret {| samples := [ {| response := {| ai_text := tr_text response |};
                          score := float_zero |} ];
          usage := None |}.

Definition n_not_supported_message (n : Z) : string :=
  "`n` greater than 1 is not supported: " +:+ pretty n +:+ ".".

Definition unsupported_api_message (api : string) : string :=
  "Unsupported API: " +:+ api.

(** [_sample_single] *)
Definition _sample_single (self : VertexAI) (prompt : Message)
  : Py LMSamplingResult :=
  if bool_decide (n (sampling_options self) > 1) then
    raise (ValueError (n_not_supported_message (n (sampling_options self))))
  else
    match dict_get SUPPORTED_MODELS_AND_SETTINGS (model self) with
    | None => raise (KeyError (model self))
    | Some setting =>
        let api := api setting in
        if String.eqb api "gemini" then _sample_generative_model self prompt
        else if String.eqb api "palm" then _sample_text_generation_model self prompt
        else raise (ValueError (unsupported_api_message api))
    end.

(** [_sample], with the order in which the dispatched calls complete. *)
Definition _sample (self : VertexAI) (prompts : list Message)
    (completion_order : list nat) (w : World)
  : option (outcome (list LMSamplingResult)) * VertexAI * World :=
  match _api_initialized self w with
  | (Raise e, self', w') => (Some (Raise e), self', w')
  | (Return initialized, self', w') =>
      if negb initialized then
        (Some (Raise (AssertionError "Vertex AI API is not initialized.")), self', w')
      else
        match max_concurrency self' with
        | Raise e => (Some (Raise e), self', w')
        | Return max_workers =>
            let '(results, w'') :=
              concurrent_execute (_sample_single self') prompts
                (resource_id self') max_workers completion_order w' in
            (results, self', w'')
        end
  end.



(** What the adapter accepts in a prompt: text, and images when it is
    multimodal. *)
Definition accepts (self : VertexAI) (c : lf_chunk) : bool :=
  match c with
  | StrChunk _ => true
  | ImageChunk _ => multimodal self
  | OtherModality _ _ => false
  end.

(** The provider chunk a prompt chunk is turned into. *)
Definition turned_into (self : VertexAI) (c : lf_chunk) (part : Part) : Prop :=
  match c with
  | StrChunk s => part = TextPart s
  | ImageChunk bytes => multimodal self = true ∧ part = Image_from_bytes bytes
  | OtherModality _ _ => False
  end.

(** What [_sample_generative_model] returns or raises, given the handle
    the hub yields. *)
Definition generative_output (self : VertexAI) (prompt : Message)
    (h : GenerativeModel) : outcome LMSamplingResult :=
  match _content_from_message self prompt with
  | Raise e => Raise e
  | Return content =>
      match provider_generate_content h content
              (_generation_config (sampling_options self)) with
      | inl detail => Raise (ProviderError detail)
      | inr response =>
          Return {| samples := [ {| response := {| ai_text := gr_text response |};
                                    score := float_zero |} ];
                    usage := Some
                      {| prompt_tokens := prompt_token_count (usage_metadata response);
                         completion_tokens :=
                           candidates_token_count (usage_metadata response);
                         total_tokens :=
                           total_token_count (usage_metadata response) |} |}
      end
  end.

(** What [_sample_text_generation_model] returns or raises, given the
    handle the hub yields. *)
Definition text_generation_output (self : VertexAI) (prompt : Message)
    (h : TextGenerationModel) : outcome LMSamplingResult :=
  match provider_predict h (text prompt)
          {| po_temperature := temperature (sampling_options self);
             po_top_k := top_k (sampling_options self);
             po_top_p := top_p (sampling_options self);
             po_max_output_tokens := max_tokens (sampling_options self);
             po_stop_sequences := stop (sampling_options self) |} with
  | inl detail => Raise (ProviderError detail)
  | inr response =>
      Return {| samples := [ {| response := {| ai_text := tr_text response |};
                                score := float_zero |} ];
                usage := None |}
  end.

(** The handle [_sample_single] works with in a given state of the
    process: the one the hub yields for the adapter's model in the cache of
    the model's API. *)
Definition dispatch_handle (self : VertexAI) (w : World)
  : option (GenerativeModel + TextGenerationModel) :=
  match dict_get SUPPORTED_MODELS_AND_SETTINGS (model self) with
  | None => None
  | Some setting =>
      if String.eqb (api setting) "gemini"
      then Some (inl (generative_model_for (model self) w))
      else if String.eqb (api setting) "palm"
           then Some (inr (text_generation_model_for (model self) w))
           else None
  end.

(** Whether sampling a prompt gets as far as sending a request to the
    model: one sample at most is wanted, the model is in the registry, and
    on the generative API every chunk of the prompt is accepted. *)
Definition sends_request (self : VertexAI) (prompt : Message) : bool :=
  negb (bool_decide (n (sampling_options self) > 1))
  && match dict_get SUPPORTED_MODELS_AND_SETTINGS (model self) with
     | None => false
     | Some setting =>
         if String.eqb (api setting) "gemini"
         then forallb (accepts self) (chunk prompt)
         else String.eqb (api setting) "palm"
     end.

(** What the rest of the program can ask of this module. *)
Inductive action : Type :=
| do_get_generative_model (model_id : string)
| do_get_text_generation_model (model_id : string)
| do_api_initialized (self : VertexAI)
| do_sample_single (self : VertexAI) (prompt : Message)
| do_sample (self : VertexAI) (prompts : list Message) (completion_order : list nat).

Definition perform (a : action) (w : World) : World :=
  match a with
  | do_get_generative_model model_id => (get_generative_model model_id w).2
  | do_get_text_generation_model model_id =>
      (get_text_generation_model model_id w).2
  | do_api_initialized self => (_api_initialized self w).2
  | do_sample_single self prompt => (_sample_single self prompt w).2
  | do_sample self prompts completion_order =>
      (_sample self prompts completion_order w).2
  end.

Definition perform_all (actions : list action) (w : World) : World :=
  fold_left (λ w a, perform a w) actions w.

(** The actions that run on the caller's thread alone: all but [_sample],
    which hands its prompts to the executor's workers. *)
Definition sequential (a : action) : bool :=
  match a with
  | do_sample _ _ _ => false
  | _ => true
  end.

(** * Properties *)

(** ** Prompt translation *)

Lemma content_loop_return (self : VertexAI) (cs : list lf_chunk) :
  ∀ acc parts,
    content_loop self cs acc = Return parts →
    ∃ new, parts = (acc ++ new)%list ∧ Forall2 (turned_into self) cs new.
Proof.
  induction cs as [|c cs IH]; intros acc parts H; simpl in H.
  - injection H as <-. exists []. split; [by rewrite app_nil_r | constructor].
  - destruct c as [s|bytes|kind payload]; try discriminate.
    + apply IH in H as (new & -> & Hall).
      exists (TextPart s :: new). split; [by rewrite <- app_assoc |].
      by constructor.
    + destruct (multimodal self) eqn:Hmm; [|discriminate].
      apply IH in H as (new & -> & Hall).
      exists (Image_from_bytes bytes :: new). split; [by rewrite <- app_assoc |].
      constructor; [by simpl | done].
Qed.

Lemma content_loop_raise (self : VertexAI) (cs : list lf_chunk) :
  ∀ acc e,
    content_loop self cs acc = Raise e →
    ∃ before c after,
      cs = (before ++ c :: after)%list
      ∧ Forall (λ c, accepts self c = true) before
      ∧ accepts self c = false
      ∧ e = ValueError ("Unsupported modality: " +:+ repr c).
Proof.
  induction cs as [|c cs IH]; intros acc e H; simpl in H; [discriminate|].
  destruct c as [s|bytes|kind payload].
  - apply IH in H as (before & c & after & -> & Hb & Hc & ->).
    exists (StrChunk s :: before), c, after. repeat split; try done.
    by constructor.
  - destruct (multimodal self) eqn:Hmm.
    + apply IH in H as (before & c & after & -> & Hb & Hc & ->).
      exists (ImageChunk bytes :: before), c, after. repeat split; try done.
      by constructor.
    + injection H as <-. exists [], (ImageChunk bytes), cs. by repeat split.
  - injection H as <-. exists [], (OtherModality kind payload), cs. by repeat split.
Qed.

Lemma turned_into_accepts (self : VertexAI) (cs : list lf_chunk) (parts : list Part) :
  Forall2 (turned_into self) cs parts → Forall (λ c, accepts self c = true) cs.
Proof.
  induction 1 as [|c part cs parts Hc _ IH]; constructor; [|done].
  destruct c; simpl in *; [done | tauto | done].
Qed.

(** C2. [_content_from_message] returns one provider chunk per prompt
    chunk, in order: a text chunk as the same text, an image chunk as the
    provider's image of its bytes, which happens only for a multimodal
    adapter.  Otherwise it raises the error [Unsupported modality: ...]
    with the [repr] of the first chunk that is neither text nor, for a
    multimodal adapter, an image.  It returns exactly when every chunk is
    accepted. *)
Theorem content_from_message_policy (self : VertexAI) (prompt : Message) :
  match _content_from_message self prompt with
  | Return parts => Forall2 (turned_into self) (chunk prompt) parts
  | Raise e =>
      ∃ before c after,
        chunk prompt = (before ++ c :: after)%list
        ∧ Forall (λ c, accepts self c = true) before
        ∧ accepts self c = false
        ∧ e = ValueError ("Unsupported modality: " +:+ repr c)
  end
  ∧ (Forall (λ c, accepts self c = true) (chunk prompt)
     ↔ ∃ parts, _content_from_message self prompt = Return parts).
Proof.
  unfold _content_from_message.
  destruct (content_loop self (chunk prompt) []) as [parts|e] eqn:H.
  - apply content_loop_return in H as (new & -> & Hall). simpl.
    split; [done|]. split; [by eauto|]. intros _.
    by eapply turned_into_accepts.
  - apply content_loop_raise in H as (before & c & after & Hcs & Hb & Hc & ->).
    split; [by exists before, c, after|].
    split; [|by intros [? ?]].
    rewrite Hcs. intros Hall. apply Forall_app in Hall as [_ Hall].
    apply Forall_cons in Hall as [Hall _]. congruence.
Qed.


(** ** Lazy initialization *)

Ltac run_py :=
  unfold mbind, mret, Py_bind, Py_ret, bind, ret, raise, lift, sdk,
    os_environ_get, new_oid, get_hub, put_hub, use_executor,
    get_world, put_world in *;
  simpl in *.

Arguments truthy : simpl never.
Arguments py_or : simpl never.

Lemma truthy_Some (s : string) : truthy (Some s) = true ↔ s ≠ "".
Proof.
  unfold truthy. destruct (String.eqb_spec s ""); simpl; split; intros; congruence.
Qed.

Lemma py_or_resolves (field env_value : option string) (v : string) :
  resolves_to field env_value v → py_or field env_value = Some v.
Proof.
  intros [Hv [-> | [[-> | ->] ->]]]; unfold py_or; try done.
  apply truthy_Some in Hv. by rewrite Hv.
Qed.

Lemma py_or_unresolved (field env_value : option string) :
  unresolved field env_value ↔ truthy (py_or field env_value) = false.
Proof.
  unfold unresolved, resolves_to, py_or. split.
  - intros H. destruct (truthy field) eqn:Hf.
    + destruct field as [s|]; [|done]. apply truthy_Some in Hf.
      exfalso. apply (H s). by split; [|left].
    + destruct (truthy env_value) eqn:He; [|done].
      destruct env_value as [s|]; [|done]. apply truthy_Some in He.
      exfalso. apply (H s). split; [done|]. right. split; [|done].
      destruct field as [t|]; [|by left]. right. f_equal.
      unfold truthy in Hf. destruct (String.eqb_spec t ""); [done | discriminate].
  - intros H v [Hv Hcase]. apply truthy_Some in Hv.
    destruct Hcase as [-> | [[-> | ->] ->]].
    + rewrite Hv in H. congruence.
    + change (truthy None) with false in H. congruence.
    + change (truthy (Some "")) with false in H. congruence.
Qed.

Lemma py_or_else_environ (a : option string) (name : string) (w : World) :
  py_or_else a (os_environ_get name) w = (Return (py_or a (environ w !! name)), w).
Proof. unfold py_or_else, py_or. by destruct (truthy a). Qed.

Lemma api_initialized_body_unfold (self : VertexAI) (w : World) :
  _api_initialized_body self w
  = if negb (truthy (py_or (project self) (environ w !! "VERTEXAI_PROJECT")))
    then (Raise (ValueError project_missing_message), w)
    else if negb (truthy (py_or (location self)
                            (environ w !! "VERTEXAI_LOCATION")))
         then (Raise (ValueError location_missing_message), w)
         else (Return true,
               (sdk (vertexai_init
                       (default "" (py_or (project self)
                                      (environ w !! "VERTEXAI_PROJECT")))
                       (default "" (py_or (location self)
                                      (environ w !! "VERTEXAI_LOCATION")))
                       (credentials self)) w).2).
Proof.
  unfold _api_initialized_body, mbind, Py_bind, bind.
  rewrite py_or_else_environ. destruct (negb (truthy _)); [done|].
  rewrite py_or_else_environ. by destruct (negb (truthy _)).
Qed.

Lemma api_initialized_body_ok (self : VertexAI) (w : World) (p l : string) :
  resolves_to (project self) (environ w !! "VERTEXAI_PROJECT") p →
  resolves_to (location self) (environ w !! "VERTEXAI_LOCATION") l →
  _api_initialized_body self w
  = (Return true, (sdk (vertexai_init p l (credentials self)) w).2).
Proof.
  intros Hp Hl. rewrite api_initialized_body_unfold.
  rewrite (py_or_resolves _ _ _ Hp), (py_or_resolves _ _ _ Hl).
  destruct Hp as [Hp _], Hl as [Hl _].
  apply truthy_Some in Hp, Hl. by rewrite Hp, Hl.
Qed.

Lemma api_initialized_body_no_project (self : VertexAI) (w : World) :
  unresolved (project self) (environ w !! "VERTEXAI_PROJECT") →
  _api_initialized_body self w = (Raise (ValueError project_missing_message), w).
Proof.
  intros Hp. apply py_or_unresolved in Hp.
  rewrite api_initialized_body_unfold. by rewrite Hp.
Qed.

Lemma api_initialized_body_no_location (self : VertexAI) (w : World) (p : string) :
  resolves_to (project self) (environ w !! "VERTEXAI_PROJECT") p →
  unresolved (location self) (environ w !! "VERTEXAI_LOCATION") →
  _api_initialized_body self w = (Raise (ValueError location_missing_message), w).
Proof.
  intros Hp Hl. apply py_or_unresolved in Hl.
  rewrite api_initialized_body_unfold.
  rewrite (py_or_resolves _ _ _ Hp), Hl. destruct Hp as [Hp _].
  apply truthy_Some in Hp. by rewrite Hp.
Qed.

Lemma api_initialized_body_raise (self : VertexAI) (w w' : World) (e : exn) :
  _api_initialized_body self w = (Raise e, w') → w' = w.
Proof.
  rewrite api_initialized_body_unfold.
  repeat case_match; intros Heq; by inversion Heq.
Qed.

(** C4. On an instance that has not been initialized, reading
    [_api_initialized] takes the project from the [project] field or, when
    the field is [None] (or empty), from [VERTEXAI_PROJECT], and the
    location likewise from [location] or [VERTEXAI_LOCATION].  With both
    resolved it calls [vertexai.init] with them and returns [True].  With
    the project unresolved, or else the location, it raises a [ValueError]
    and leaves the process as it was (no SDK call is made); the message
    names the field and the environment variable. *)
Theorem api_initialized_resolution (self : VertexAI) (w : World) :
  cached_api_initialized self = None →
  (∀ p l,
     resolves_to (project self) (environ w !! "VERTEXAI_PROJECT") p →
     resolves_to (location self) (environ w !! "VERTEXAI_LOCATION") l →
     _api_initialized self w
     = (Return true, set_cached_api_initialized self (Some true),
        (sdk (vertexai_init p l (credentials self)) w).2))
  ∧ (unresolved (project self) (environ w !! "VERTEXAI_PROJECT") →
     _api_initialized self w
     = (Raise (ValueError project_missing_message), self, w))
  ∧ (∀ p,
       resolves_to (project self) (environ w !! "VERTEXAI_PROJECT") p →
       unresolved (location self) (environ w !! "VERTEXAI_LOCATION") →
       _api_initialized self w
       = (Raise (ValueError location_missing_message), self, w))
  ∧ occurs_in "`project`" project_missing_message = true
  ∧ occurs_in "`VERTEXAI_PROJECT`" project_missing_message = true
  ∧ occurs_in "`location`" location_missing_message = true
  ∧ occurs_in "`VERTEXAI_LOCATION`" location_missing_message = true.
Proof.
  intros Hnone. unfold _api_initialized. rewrite Hnone.
  split; [|split; [|split]].
  - intros p l Hp Hl. by rewrite (api_initialized_body_ok _ _ _ _ Hp Hl).
  - intros Hp. by rewrite (api_initialized_body_no_project _ _ Hp).
  - intros p Hp Hl. by rewrite (api_initialized_body_no_location _ _ _ Hp Hl).
  - by vm_compute.
Qed.

(** C10. A read of [_api_initialized] that raises stores nothing: the
    instance and the process are as before, so the next read resolves
    again, and returns [True] once project and location resolve.  A read
    that returns stores the value: every later read on that instance
    returns it without looking at the process.  With both project and
    location unresolved the error is the one about [project]. *)
Theorem api_initialized_caches_only_success (self : VertexAI) (w : World) :
  cached_api_initialized self = None →
  (∀ e self' w',
     _api_initialized self w = (Raise e, self', w') →
     self' = self ∧ w' = w
     ∧ ∀ w2 p l,
         resolves_to (project self) (environ w2 !! "VERTEXAI_PROJECT") p →
         resolves_to (location self) (environ w2 !! "VERTEXAI_LOCATION") l →
         (_api_initialized self' w2).1.1 = Return true)
  ∧ (∀ v self' w',
       _api_initialized self w = (Return v, self', w') →
       cached_api_initialized self' = Some v
       ∧ ∀ w2, _api_initialized self' w2 = (Return v, self', w2))
  ∧ (unresolved (project self) (environ w !! "VERTEXAI_PROJECT") →
     unresolved (location self) (environ w !! "VERTEXAI_LOCATION") →
     (_api_initialized self w).1.1 = Raise (ValueError project_missing_message)
     ∧ occurs_in "`project`" project_missing_message = true
     ∧ occurs_in "location" project_missing_message = false).
Proof.
  intros Hnone. split; [|split].
  - intros e self' w' H. unfold _api_initialized in H. rewrite Hnone in H.
    assert (self' = self ∧ w' = w) as [-> ->].
    { destruct (_api_initialized_body self w) as [[v|e'] w1] eqn:Hbody;
        inversion H; subst.
      by apply api_initialized_body_raise in Hbody as ->. }
    do 2 (split; [done|]). intros w2 p l Hp Hl.
    unfold _api_initialized. rewrite Hnone.
    by rewrite (api_initialized_body_ok _ _ _ _ Hp Hl).
  - intros v self' w' H. unfold _api_initialized in H. rewrite Hnone in H.
    destruct (_api_initialized_body self w) as [[v'|e] w1]; inversion H; subst.
    split; [done|]. intros w2. by unfold _api_initialized.
  - intros Hp _. unfold _api_initialized. rewrite Hnone.
    rewrite (api_initialized_body_no_project _ _ Hp). by vm_compute.
Qed.


(** ** The model hub, one call at a time *)

Lemma get_generative_model_value (model_id : string) (w : World) :
  (get_generative_model model_id w).1 = Return (generative_model_for model_id w).
Proof.
  unfold get_generative_model, generative_model_for, GenerativeModel_ctor,
    store_generative_model. run_py.
  by destruct (_generative_model_cache (_VERTEXAI_MODEL_HUB w) !! model_id).
Qed.

Lemma get_text_generation_model_value (model_id : string) (w : World) :
  (get_text_generation_model model_id w).1
  = Return (text_generation_model_for model_id w).
Proof.
  unfold get_text_generation_model, text_generation_model_for,
    TextGenerationModel_ctor, store_text_generation_model. run_py.
  by destruct (_text_generation_model_cache (_VERTEXAI_MODEL_HUB w) !! model_id).
Qed.

(** ** Sampling one prompt *)

(** C5. With more than one sample requested, [_sample_single] raises the
    [ValueError] saying that [n] greater than 1 is not supported, and the
    process is left as it was: nothing was asked of the hub and no call
    went to the SDK. *)
Theorem sample_single_rejects_n_above_one (self : VertexAI) (prompt : Message)
    (w : World) :
  n (sampling_options self) > 1 →
  (_sample_single self prompt w).1
  = Raise (ValueError (n_not_supported_message (n (sampling_options self))))
  ∧ (_sample_single self prompt w).2 = w
  ∧ sdk_calls (_sample_single self prompt w).2 = sdk_calls w
  ∧ _VERTEXAI_MODEL_HUB (_sample_single self prompt w).2 = _VERTEXAI_MODEL_HUB w.
Proof.
  intros Hn. unfold _sample_single.
  rewrite bool_decide_eq_true_2 by done. by run_py.
Qed.

Lemma dict_get_elem_of {V : Type} (d : list (string * V)) (key : string) (v : V) :
  dict_get d key = Some v → (key, v) ∈ d.
Proof.
  induction d as [|[k v'] d IH]; [done|]. cbn [dict_get].
  destruct (String.eqb_spec k key) as [->|_].
  - intros [= ->]. by left.
  - intros H. right. by apply IH.
Qed.

Lemma dict_get_key {V : Type} (d : list (string * V)) (key : string) :
  key ∈ dict_keys d → ∃ v, dict_get d key = Some v.
Proof.
  unfold dict_keys. induction d as [|[k v'] d IH]; cbn [map fst dict_get].
  - by intros ?%elem_of_nil.
  - intros H. destruct (String.eqb_spec k key) as [->|Hne]; [by eexists|].
    apply elem_of_cons in H as [-> | H]; [done | by apply IH].
Qed.

Lemma registry_api_families (m : string) (setting : ModelSetting) :
  dict_get SUPPORTED_MODELS_AND_SETTINGS m = Some setting →
  api setting = "gemini" ∨ api setting = "palm".
Proof.
  intros H%dict_get_elem_of. unfold SUPPORTED_MODELS_AND_SETTINGS in H.
  repeat (apply elem_of_cons in H as [[= -> ->] | H]; [simpl; by auto|]).
  by apply elem_of_nil in H.
Qed.

Lemma registry_has_accepted (m : string) :
  model_accepted m = true →
  ∃ setting, dict_get SUPPORTED_MODELS_AND_SETTINGS m = Some setting.
Proof.
  unfold model_accepted. intros H%bool_decide_eq_true.
  by apply dict_get_key.
Qed.


(** Every named variant has a registry model as its default, so it can be
    built with the model left out. *)
Lemma variants_are_accepted (proj loc : option string)
    (cred : option Credentials) (mm : option bool) (opts : LMSamplingOptions) :
  is_Some (VertexAIGeminiPro1_5 None proj loc cred mm opts)
  ∧ is_Some (VertexAIGeminiPro1 None proj loc cred mm opts)
  ∧ is_Some (VertexAIGeminiPro1Vision None proj loc cred mm opts)
  ∧ is_Some (VertexAIPalm2 None proj loc cred mm opts)
  ∧ is_Some (VertexAIPalm2_32K None proj loc cred mm opts).
Proof. repeat split; by eexists. Qed.

Lemma sample_generative_model_errors (self : VertexAI) (prompt : Message)
    (w : World) (e : exn) :
  (_sample_generative_model self prompt w).1 = Raise e →
  (∃ c, e = ValueError ("Unsupported modality: " +:+ repr c))
  ∨ (∃ detail, e = ProviderError detail).
Proof.
  unfold _sample_generative_model, call_generate_content.
  pose proof (get_generative_model_value (model self) w) as Hget.
  run_py. destruct (get_generative_model (model self) w) as [[h|e'] w1];
    simpl in Hget; [|discriminate].
  unfold _content_from_message.
  destruct (content_loop self (chunk prompt) []) as [content|e'] eqn:Hc.
  - destruct (provider_generate_content _ _ _); simpl; [|discriminate].
    intros [= <-]. right. by eexists.
  - simpl. intros [= <-].
    apply content_loop_raise in Hc as (_ & c & _ & _ & _ & _ & ->).
    left. by eexists.
Qed.

Lemma sample_text_generation_model_errors (self : VertexAI) (prompt : Message)
    (w : World) (e : exn) :
  (_sample_text_generation_model self prompt w).1 = Raise e →
  ∃ detail, e = ProviderError detail.
Proof.
  unfold _sample_text_generation_model, call_predict.
  pose proof (get_text_generation_model_value (model self) w) as Hget.
  run_py. destruct (get_text_generation_model (model self) w) as [[h|e'] w1];
    simpl in Hget; [|discriminate].
  destruct (provider_predict _ _ _); simpl; [|discriminate].
  intros [= <-]. by eexists.
Qed.



(** C6. When the prompt's content builds and the provider answers, the
    generative path returns one sample, the response text as an AI
    message with score [0.0], and a usage record holding the prompt,
    candidates and total token counts of the response's usage metadata.
    When the provider answers, the text-completion path returns one such
    sample and no usage record.  Whatever either path returns has that
    shape. *)
Theorem response_translation (self : VertexAI) (prompt : Message) (w : World) :
  (∀ content response,
     _content_from_message self prompt = Return content →
     provider_generate_content (generative_model_for (model self) w) content
       (_generation_config (sampling_options self)) = inr response →
     (_sample_generative_model self prompt w).1
     = Return {| samples := [ {| response := {| ai_text := gr_text response |};
                                 score := S754_zero false |} ];
                 usage := Some
                   {| prompt_tokens := prompt_token_count (usage_metadata response);
                      completion_tokens :=
                        candidates_token_count (usage_metadata response);
                      total_tokens := total_token_count (usage_metadata response) |}
              |})
  ∧ (∀ response,
       provider_predict (text_generation_model_for (model self) w) (text prompt)
         {| po_temperature := temperature (sampling_options self);
            po_top_k := top_k (sampling_options self);
            po_top_p := top_p (sampling_options self);
            po_max_output_tokens := max_tokens (sampling_options self);
            po_stop_sequences := stop (sampling_options self) |} = inr response →
       (_sample_text_generation_model self prompt w).1
       = Return {| samples := [ {| response := {| ai_text := tr_text response |};
                                   score := S754_zero false |} ];
                   usage := None |})
  ∧ (∀ result,
       (_sample_generative_model self prompt w).1 = Return result →
       ∃ sample counts,
         samples result = [sample] ∧ score sample = S754_zero false
         ∧ usage result = Some counts)
  ∧ (∀ result,
       (_sample_text_generation_model self prompt w).1 = Return result →
       ∃ sample,
         samples result = [sample] ∧ score sample = S754_zero false
         ∧ usage result = None).
Proof.
  pose proof (get_generative_model_value (model self) w) as Hgen.
  pose proof (get_text_generation_model_value (model self) w) as Htext.
  unfold _sample_generative_model, _sample_text_generation_model,
    call_generate_content, call_predict.
  run_py.
  destruct (get_generative_model (model self) w) as [[g|?] wg];
    simpl in Hgen; [injection Hgen as ->|discriminate].
  destruct (get_text_generation_model (model self) w) as [[t|?] wt];
    simpl in Htext; [injection Htext as ->|discriminate].
  repeat split.
  - intros content response -> Hresp. by rewrite Hresp.
  - intros response Hresp. by rewrite Hresp.
  - intros result. destruct (_content_from_message self prompt); [|done].
    destruct (provider_generate_content _ _ _); [done|].
    simpl. intros [= <-]. by eexists _, _.
  - intros result. destruct (provider_predict _ _ _); [done|].
    simpl. intros [= <-]. by eexists.
Qed.

(** ** Rate control *)

Lemma append_suffix_inj (a b : string) (c : Ascii.ascii) :
  a +:+ String c "" = b +:+ String c "" → a = b.
Proof.
  revert b. induction a as [|x a IH]; intros [|y b]; simpl; try done.
  - intros [= _ H]. by destruct b.
  - intros [= _ H]. by destruct a.
  - intros [= -> H]. f_equal. by apply IH.
Qed.

Lemma model_id_inj (self other : VertexAI) :
  model_id self = model_id other ↔ model self = model other.
Proof.
  unfold model_id. split; [|by intros ->].
  simpl. intros [= H]. by apply append_suffix_inj in H.
Qed.




(** ** How the operations move the process *)

Lemma later_refl (w : World) : later w w.
Proof.
  split; [by split | done | by exists []; rewrite app_nil_r].
Qed.

Lemma later_trans (w1 w2 w3 : World) : later w1 w2 → later w2 w3 → later w1 w3.
Proof.
  intros [[Hg1 Ht1] Ha1 [m1 Hc1]] [[Hg2 Ht2] Ha2 [m2 Hc2]].
  split; [split | |].
  - intros m h H. by apply Hg2, Hg1.
  - intros m h H. by apply Ht2, Ht1.
  - auto.
  - exists (m1 ++ m2)%list. by rewrite Hc2, Hc1, app_assoc.
Qed.

Lemma forward_ret {A : Type} (a : A) : forward (mret a : Py A).
Proof. intros w. split; [apply later_refl | done]. Qed.

Lemma forward_raise {A : Type} (e : exn) : forward (raise e : Py A).
Proof. intros w. split; [apply later_refl | done]. Qed.

Lemma forward_lift {A : Type} (o : outcome A) : forward (lift o).
Proof. intros w. split; [apply later_refl | done]. Qed.

Lemma forward_bind {A B : Type} (c : Py A) (k : A → Py B) :
  forward c → (∀ a, forward (k a)) → forward (c ≫= k).
Proof.
  intros Hc Hk w. unfold mbind, Py_bind, bind.
  destruct (Hc w) as [Hl He]. destruct (c w) as [[a|e] w1]; simpl in *; [|done].
  destruct (Hk a w1) as [Hl' He']. split; [by eapply later_trans | congruence].
Qed.

Definition builds_no_handle (c : sdk_call) : Prop :=
  ∀ m, is_GenerativeModel_new m c = false ∧ is_from_pretrained m c = false.

Lemma forward_sdk (c : sdk_call) : builds_no_handle c → forward (sdk c).
Proof.
  intros Hc w. run_py. split; [|done]. split; simpl.
  - by split.
  - intros Hacc m. destruct (Hacc m) as [Hg Ht]. destruct (Hc m) as [Hcg Hct].
    unfold generative_models_built, text_generation_models_built in *. simpl.
    rewrite !filter_app, !length_app, Hg, Ht.
    rewrite !filter_cons_False, !filter_nil by congruence. simpl. lia.
  - by eexists.
Qed.

Lemma forward_get_generative_model (model_id : string) :
  forward (get_generative_model model_id).
Proof.
  intros w. unfold get_generative_model, GenerativeModel_ctor,
    store_generative_model. run_py.
  destruct (_generative_model_cache (_VERTEXAI_MODEL_HUB w) !! model_id)
    as [h|] eqn:Hlook; simpl.
  { split; [apply later_refl | done]. }
  split; [|done]. split; simpl.
  - split; simpl; [|done]. intros m h H.
    rewrite lookup_insert_ne; [done | congruence].
  - intros Hacc m. destruct (Hacc m) as [Hg Ht].
    unfold generative_models_built, text_generation_models_built in *. simpl.
    rewrite !filter_app, !length_app, Hg, Ht. split.
    + destruct (decide (m = model_id)) as [->|Hne].
      * rewrite Hlook, lookup_insert_eq.
        rewrite filter_cons_True by (simpl; apply String.eqb_refl). done.
      * rewrite lookup_insert_ne by done.
        rewrite filter_cons_False, filter_nil; [simpl; lia|].
        simpl. intros Heq. apply String.eqb_eq in Heq. congruence.
    + rewrite filter_cons_False, filter_nil by done. simpl. lia.
  - by eexists.
Qed.

Lemma forward_get_text_generation_model (model_id : string) :
  forward (get_text_generation_model model_id).
Proof.
  intros w. unfold get_text_generation_model, TextGenerationModel_ctor,
    store_text_generation_model. run_py.
  destruct (_text_generation_model_cache (_VERTEXAI_MODEL_HUB w) !! model_id)
    as [h|] eqn:Hlook; simpl.
  { split; [apply later_refl | done]. }
  split; [|done]. split; simpl.
  - split; simpl; [done|]. intros m h H.
    rewrite lookup_insert_ne; [done | congruence].
  - intros Hacc m. destruct (Hacc m) as [Hg Ht].
    unfold generative_models_built, text_generation_models_built in *. simpl.
    rewrite !filter_app, !length_app, Hg, Ht. split.
    + rewrite filter_cons_False, filter_nil by done. simpl. lia.
    + destruct (decide (m = model_id)) as [->|Hne].
      * rewrite Hlook, lookup_insert_eq.
        rewrite filter_cons_True by (simpl; apply String.eqb_refl). done.
      * rewrite lookup_insert_ne by done.
        rewrite filter_cons_False, filter_nil; [simpl; lia|].
        simpl. intros Heq. apply String.eqb_eq in Heq. congruence.
  - by eexists.
Qed.


Lemma forward_call_generate_content (model : GenerativeModel)
    (input_content : list Part) (config : GenerationConfig) :
  forward (call_generate_content model input_content config).
Proof.
  unfold call_generate_content. apply forward_bind; [by apply forward_sdk|].
  intros _. destruct (provider_generate_content _ _ _);
    [apply forward_raise | apply forward_ret].
Qed.

Lemma forward_call_predict (model : TextGenerationModel) (prompt_text : string)
    (options : PredictOptions) :
  forward (call_predict model prompt_text options).
Proof.
  unfold call_predict. apply forward_bind; [by apply forward_sdk|].
  intros _. destruct (provider_predict _ _ _);
    [apply forward_raise | apply forward_ret].
Qed.

Lemma forward_sample_generative_model (self : VertexAI) (prompt : Message) :
  forward (_sample_generative_model self prompt).
Proof.
  unfold _sample_generative_model.
  apply forward_bind; [apply forward_get_generative_model|]. intros h.
  apply forward_bind; [apply forward_lift|]. intros content.
  apply forward_bind; [apply forward_call_generate_content|]. intros response.
  apply forward_ret.
Qed.

Lemma forward_sample_text_generation_model (self : VertexAI) (prompt : Message) :
  forward (_sample_text_generation_model self prompt).
Proof.
  unfold _sample_text_generation_model.
  apply forward_bind; [apply forward_get_text_generation_model|]. intros h.
  apply forward_bind; [apply forward_call_predict|]. intros response.
  apply forward_ret.
Qed.

Lemma forward_sample_single (self : VertexAI) (prompt : Message) :
  forward (_sample_single self prompt).
Proof.
  unfold _sample_single. repeat case_match;
    auto using forward_raise, forward_sample_generative_model,
      forward_sample_text_generation_model.
Qed.

Lemma forward_api_initialized_body (self : VertexAI) :
  forward (_api_initialized_body self).
Proof.
  unfold _api_initialized_body.
  apply forward_bind.
  { intros w. rewrite py_or_else_environ. split; [apply later_refl | done]. }
  intros project. case_match; [apply forward_raise|].
  apply forward_bind.
  { intros w. rewrite py_or_else_environ. split; [apply later_refl | done]. }
  intros location. case_match; [apply forward_raise|].
  apply forward_bind; [by apply forward_sdk|]. intros _. apply forward_ret.
Qed.

Lemma api_initialized_later (self : VertexAI) (w : World) :
  later w (_api_initialized self w).2
  ∧ executor_uses (_api_initialized self w).2 = executor_uses w.
Proof.
  unfold _api_initialized. destruct (cached_api_initialized self).
  { split; [apply later_refl | done]. }
  pose proof (forward_api_initialized_body self w) as H.
  by destruct (_api_initialized_body self w) as [[v|e] w1].
Qed.

Lemma api_initialized_same_fields (self : VertexAI) (w : World) :
  (_api_initialized self w).1.2 = self
  ∨ ∃ v, (_api_initialized self w).1.2 = set_cached_api_initialized self v.
Proof.
  unfold _api_initialized. destruct (cached_api_initialized self); [by left|].
  destruct (_api_initialized_body self w) as [[v|e] w1]; [right | by left].
  by eexists.
Qed.

Lemma run_tasks_forward {A B : Type} (func : A → Py B) (inputs : list A) :
  (∀ x, forward (func x)) →
  ∀ order slots w,
    later w (run_tasks func inputs order slots w).2
    ∧ executor_uses (run_tasks func inputs order slots w).2 = executor_uses w.
Proof.
  intros Hf. induction order as [|i order IH]; intros slots w; simpl.
  { split; [apply later_refl | done]. }
  destruct (inputs !! i) as [x|]; [|apply IH].
  destruct (slots !! i) as [[o|]|]; try apply IH.
  destruct (Hf x w) as [Hl He]. destruct (func x w) as [o w1]. simpl in *.
  destruct (IH (<[i:=Some o]> slots) w1) as [Hl' He'].
  split; [by eapply later_trans | congruence].
Qed.

Lemma later_use_executor (key : string) (workers : Z) (w : World) :
  later w (use_executor key workers w).2.
Proof.
  run_py. split; simpl; [by split | done | by exists []; rewrite app_nil_r].
Qed.

Lemma concurrent_execute_later {A B : Type} (func : A → Py B) (inputs : list A)
    (key : string) (workers : Z) (order : list nat) (w : World) :
  (∀ x, forward (func x)) →
  later w (concurrent_execute func inputs key workers order w).2
  ∧ executor_uses (concurrent_execute func inputs key workers order w).2
    = (executor_uses w ++ [(key, workers)])%list.
Proof.
  intros Hf. unfold concurrent_execute.
  pose proof (later_use_executor key workers w) as Hu.
  destruct (use_executor key workers w) as [u w0] eqn:Huse. simpl in Hu.
  assert (executor_uses w0 = (executor_uses w ++ [(key, workers)])%list) as Hw0.
  { revert Huse. run_py. by intros [= _ <-]. }
  pose proof (run_tasks_forward func inputs Hf order
                (replicate (length inputs) None) w0) as [Hl He].
  destruct (run_tasks _ _ _ _ _) as [slots w1]. simpl in *.
  split; [by eapply later_trans | congruence].
Qed.

Lemma sample_later (self : VertexAI) (prompts : list Message)
    (order : list nat) (w : World) :
  later w (_sample self prompts order w).2.
Proof.
  unfold _sample. pose proof (api_initialized_later self w) as [Hl _].
  destruct (_api_initialized self w) as [[[v|e] self1] w1]; simpl in *; [|done].
  destruct (negb v); [done|]. destruct (max_concurrency self1); [|done].
  pose proof (concurrent_execute_later (_sample_single self1) prompts
                (resource_id self1) a order w1 (forward_sample_single self1))
    as [Hl' _].
  destruct (concurrent_execute _ _ _ _ _ _) as [r w2]. simpl in *.
  by eapply later_trans.
Qed.

Lemma perform_later (a : action) (w : World) : later w (perform a w).
Proof.
  destruct a; simpl.
  - apply forward_get_generative_model.
  - apply forward_get_text_generation_model.
  - apply api_initialized_later.
  - apply forward_sample_single.
  - apply sample_later.
Qed.

Lemma perform_all_later (actions : list action) (w : World) :
  later w (perform_all actions w).
Proof.
  revert w. induction actions as [|a actions IH]; intros w; simpl.
  - apply later_refl.
  - eapply later_trans; [apply perform_later | apply IH].
Qed.


(** ** Memoization in the hub *)

Lemma get_generative_model_hit (model_id : string) (w : World) (h : GenerativeModel) :
  _generative_model_cache (_VERTEXAI_MODEL_HUB w) !! model_id = Some h →
  get_generative_model model_id w = (Return h, w).
Proof. intros H. unfold get_generative_model. run_py. by rewrite H. Qed.

Lemma get_text_generation_model_hit (model_id : string) (w : World)
    (h : TextGenerationModel) :
  _text_generation_model_cache (_VERTEXAI_MODEL_HUB w) !! model_id = Some h →
  get_text_generation_model model_id w = (Return h, w).
Proof. intros H. unfold get_text_generation_model. run_py. by rewrite H. Qed.

Lemma get_generative_model_stored (model_id : string) (w : World) :
  _generative_model_cache (_VERTEXAI_MODEL_HUB (get_generative_model model_id w).2)
    !! model_id
  = Some (generative_model_for model_id w).
Proof.
  unfold get_generative_model, generative_model_for, GenerativeModel_ctor,
    store_generative_model. run_py.
  destruct (_generative_model_cache (_VERTEXAI_MODEL_HUB w) !! model_id)
    as [h|] eqn:Hlook; simpl; [done|]. by rewrite lookup_insert_eq.
Qed.

Lemma get_text_generation_model_stored (model_id : string) (w : World) :
  _text_generation_model_cache
    (_VERTEXAI_MODEL_HUB (get_text_generation_model model_id w).2) !! model_id
  = Some (text_generation_model_for model_id w).
Proof.
  unfold get_text_generation_model, text_generation_model_for,
    TextGenerationModel_ctor, store_text_generation_model. run_py.
  destruct (_text_generation_model_cache (_VERTEXAI_MODEL_HUB w) !! model_id)
    as [h|] eqn:Hlook; simpl; [done|]. by rewrite lookup_insert_eq.
Qed.

Lemma hub_accounted_at_import (env : gmap string string) :
  hub_accounted (World_at_import env).
Proof. intros m. by split. Qed.

Lemma get_generative_model_miss (model_id : string) (w : World) :
  _generative_model_cache (_VERTEXAI_MODEL_HUB w) !! model_id = None →
  (get_generative_model model_id w).1
  = Return {| gm_model_name := model_id; gm_oid := next_oid w |}
  ∧ sdk_calls (get_generative_model model_id w).2
    = (sdk_calls w ++ [GenerativeModel_new model_id (next_oid w)])%list
  ∧ next_oid (get_generative_model model_id w).2 = S (next_oid w)
  ∧ _generative_model_cache
      (_VERTEXAI_MODEL_HUB (get_generative_model model_id w).2)
    = <[model_id := {| gm_model_name := model_id; gm_oid := next_oid w |}]>
        (_generative_model_cache (_VERTEXAI_MODEL_HUB w)).
Proof.
  intros Hmiss. unfold get_generative_model, GenerativeModel_ctor,
    store_generative_model. run_py. by rewrite Hmiss.
Qed.

Lemma get_text_generation_model_miss (model_id : string) (w : World) :
  _text_generation_model_cache (_VERTEXAI_MODEL_HUB w) !! model_id = None →
  (get_text_generation_model model_id w).1
  = Return {| tm_model_id := model_id; tm_oid := next_oid w |}
  ∧ sdk_calls (get_text_generation_model model_id w).2
    = (sdk_calls w
       ++ [TextGenerationModel_from_pretrained model_id (next_oid w)])%list
  ∧ next_oid (get_text_generation_model model_id w).2 = S (next_oid w)
  ∧ _text_generation_model_cache
      (_VERTEXAI_MODEL_HUB (get_text_generation_model model_id w).2)
    = <[model_id := {| tm_model_id := model_id; tm_oid := next_oid w |}]>
        (_text_generation_model_cache (_VERTEXAI_MODEL_HUB w)).
Proof.
  intros Hmiss. unfold get_text_generation_model, TextGenerationModel_ctor,
    store_text_generation_model. run_py. by rewrite Hmiss.
Qed.

Lemma asked_generative_is_cached (m : string) (actions : list action) :
  ∀ w, do_get_generative_model m ∈ actions →
       is_Some (_generative_model_cache
                  (_VERTEXAI_MODEL_HUB (perform_all actions w)) !! m).
Proof.
  induction actions as [|a actions IH]; intros w Hin.
  { by apply elem_of_nil in Hin. }
  apply elem_of_cons in Hin as [<- | Hin]; [|by apply IH].
  simpl. pose proof (perform_all_later actions (get_generative_model m w).2)
    as [[Hkept _] _ _].
  eexists. apply Hkept, get_generative_model_stored.
Qed.

Lemma asked_text_generation_is_cached (m : string) (actions : list action) :
  ∀ w, do_get_text_generation_model m ∈ actions →
       is_Some (_text_generation_model_cache
                  (_VERTEXAI_MODEL_HUB (perform_all actions w)) !! m).
Proof.
  induction actions as [|a actions IH]; intros w Hin.
  { by apply elem_of_nil in Hin. }
  apply elem_of_cons in Hin as [<- | Hin]; [|by apply IH].
  simpl. pose proof (perform_all_later actions
                       (get_text_generation_model m w).2) as [[_ Hkept] _ _].
  eexists. apply Hkept, get_text_generation_model_stored.
Qed.

(** C8. A getter of the hub, asked for a model identifier the hub does not
    hold, builds a new handle for it (one constructor call, a new object),
    stores it and returns it; asked for one the hub holds, it returns the
    stored handle and does nothing else.  So once a first call has
    returned, whatever the program then asks of this module, the same
    getter called with the same model identifier returns that very handle
    (same object identity) and builds nothing.  In a process that starts
    with an empty hub and makes its calls one after the other, the handles
    built for an API family and a model identifier are exactly the one the
    hub holds: none before the getter is asked for it, one ever after. *)
Theorem hub_memoizes (model_id : string) (actions : list action) (w : World) :
  (∃ h, (get_generative_model model_id w).1 = Return h)
  ∧ (_generative_model_cache (_VERTEXAI_MODEL_HUB w) !! model_id = None →
     (get_generative_model model_id w).1
     = Return {| gm_model_name := model_id; gm_oid := next_oid w |}
     ∧ sdk_calls (get_generative_model model_id w).2
       = (sdk_calls w ++ [GenerativeModel_new model_id (next_oid w)])%list
     ∧ next_oid (get_generative_model model_id w).2 = S (next_oid w)
     ∧ _generative_model_cache
         (_VERTEXAI_MODEL_HUB (get_generative_model model_id w).2)
       = <[model_id := {| gm_model_name := model_id; gm_oid := next_oid w |}]>
           (_generative_model_cache (_VERTEXAI_MODEL_HUB w)))
  ∧ (∀ h, _generative_model_cache (_VERTEXAI_MODEL_HUB w) !! model_id = Some h →
          get_generative_model model_id w = (Return h, w))
  ∧ get_generative_model model_id
      (perform_all actions (get_generative_model model_id w).2)
    = ((get_generative_model model_id w).1,
       perform_all actions (get_generative_model model_id w).2)
  ∧ (∃ h, (get_text_generation_model model_id w).1 = Return h)
  ∧ (_text_generation_model_cache (_VERTEXAI_MODEL_HUB w) !! model_id = None →
     (get_text_generation_model model_id w).1
     = Return {| tm_model_id := model_id; tm_oid := next_oid w |}
     ∧ sdk_calls (get_text_generation_model model_id w).2
       = (sdk_calls w
          ++ [TextGenerationModel_from_pretrained model_id (next_oid w)])%list
     ∧ next_oid (get_text_generation_model model_id w).2 = S (next_oid w)
     ∧ _text_generation_model_cache
         (_VERTEXAI_MODEL_HUB (get_text_generation_model model_id w).2)
       = <[model_id := {| tm_model_id := model_id; tm_oid := next_oid w |}]>
           (_text_generation_model_cache (_VERTEXAI_MODEL_HUB w)))
  ∧ (∀ h, _text_generation_model_cache (_VERTEXAI_MODEL_HUB w) !! model_id
          = Some h →
          get_text_generation_model model_id w = (Return h, w))
  ∧ get_text_generation_model model_id
      (perform_all actions (get_text_generation_model model_id w).2)
    = ((get_text_generation_model model_id w).1,
       perform_all actions (get_text_generation_model model_id w).2)
  ∧ (Forall (λ a, sequential a = true) actions →
     ∀ env m,
       generative_models_built m (perform_all actions (World_at_import env))
       = match _generative_model_cache
                 (_VERTEXAI_MODEL_HUB
                    (perform_all actions (World_at_import env))) !! m with
         | Some _ => 1%nat
         | None => 0%nat
         end
       ∧ text_generation_models_built m
           (perform_all actions (World_at_import env))
         = match _text_generation_model_cache
                   (_VERTEXAI_MODEL_HUB
                      (perform_all actions (World_at_import env))) !! m with
           | Some _ => 1%nat
           | None => 0%nat
           end
       ∧ (do_get_generative_model m ∈ actions →
          generative_models_built m (perform_all actions (World_at_import env))
          = 1%nat)
       ∧ (do_get_text_generation_model m ∈ actions →
          text_generation_models_built m
            (perform_all actions (World_at_import env)) = 1%nat)).
Proof.
  split; [by rewrite get_generative_model_value; eexists|].
  split; [apply get_generative_model_miss|].
  split; [intros h; apply get_generative_model_hit|].
  split.
  { rewrite get_generative_model_value. apply get_generative_model_hit.
    pose proof (perform_all_later actions (get_generative_model model_id w).2)
      as [[Hkept _] _ _].
    apply Hkept, get_generative_model_stored. }
  split; [by rewrite get_text_generation_model_value; eexists|].
  split; [apply get_text_generation_model_miss|].
  split; [intros h; apply get_text_generation_model_hit|].
  split.
  { rewrite get_text_generation_model_value. apply get_text_generation_model_hit.
    pose proof (perform_all_later actions
                  (get_text_generation_model model_id w).2) as [[_ Hkept] _ _].
    apply Hkept, get_text_generation_model_stored. }
  intros _ env m.
  pose proof (perform_all_later actions (World_at_import env)) as [_ Hacc _].
  destruct (Hacc (hub_accounted_at_import env) m) as [Hg Ht].
  split; [done|]. split; [done|]. split.
  - intros Hin. rewrite Hg.
    by destruct (asked_generative_is_cached m actions (World_at_import env) Hin)
      as [h ->].
  - intros Hin. rewrite Ht.
    by destruct (asked_text_generation_is_cached m actions
                   (World_at_import env) Hin) as [h ->].
Qed.

(** ** The resource key *)

(** C3 (amended). The resource key is the adapter's [model_id], the string
    [VertexAI(<model>)] and not the model identifier itself.  A call of
    [_sample] that gets as far as the executor uses the executor of that
    key, with [max_concurrency] workers.  Two adapters have the same key
    exactly when they have the same model identifier. *)
Theorem resource_key_is_model_id (self : VertexAI) :
  resource_id self = "VertexAI(" +:+ model self +:+ ")"
  ∧ (∀ prompts order w workers,
       (_api_initialized self w).1.1 = Return true →
       max_concurrency self = Return workers →
       executor_uses (_sample self prompts order w).2
       = (executor_uses w ++ [("VertexAI(" +:+ model self +:+ ")", workers)])%list)
  ∧ ∀ other, resource_id self = resource_id other ↔ model self = model other.
Proof.
  split; [done|]. split; [|intros other; apply model_id_inj].
  intros prompts order w workers Hinit Hmax. unfold _sample.
  pose proof (api_initialized_later self w) as [_ He].
  pose proof (api_initialized_same_fields self w) as Hself.
  destruct (_api_initialized self w) as [[[v|e] self1] w1]; simpl in *;
    [injection Hinit as -> | discriminate].
  assert (max_concurrency self1 = Return workers ∧ resource_id self1 = resource_id self)
    as [-> Hkey].
  { by destruct Hself as [-> | [v ->]]. }
  simpl.
  pose proof (concurrent_execute_later (_sample_single self1) prompts
                (resource_id self1) workers order w1 (forward_sample_single self1))
    as [_ He'].
  destruct (concurrent_execute _ _ _ _ _ _) as [r w2]. simpl in *.
  by rewrite He', He, Hkey.
Qed.


(** ** Concurrent sampling *)

Lemma sample_generative_model_value (self : VertexAI) (prompt : Message) (w : World) :
  (_sample_generative_model self prompt w).1
  = generative_output self prompt (generative_model_for (model self) w).
Proof.
  pose proof (get_generative_model_value (model self) w) as Hget.
  unfold _sample_generative_model, generative_output, call_generate_content.
  run_py.
  destruct (get_generative_model (model self) w) as [[h|?] wg];
    simpl in Hget; [injection Hget as ->|discriminate].
  destruct (_content_from_message self prompt); [|done].
  by destruct (provider_generate_content _ _ _).
Qed.

Lemma sample_text_generation_model_value (self : VertexAI) (prompt : Message)
    (w : World) :
  (_sample_text_generation_model self prompt w).1
  = text_generation_output self prompt
      (text_generation_model_for (model self) w).
Proof.
  pose proof (get_text_generation_model_value (model self) w) as Hget.
  unfold _sample_text_generation_model, text_generation_output, call_predict.
  run_py.
  destruct (get_text_generation_model (model self) w) as [[h|?] wg];
    simpl in Hget; [injection Hget as ->|discriminate].
  by destruct (provider_predict _ _ _).
Qed.

Lemma generative_model_for_kept (m : string) (w w' : World) (h : GenerativeModel) :
  _generative_model_cache (_VERTEXAI_MODEL_HUB w) !! m = Some h →
  later w w' → generative_model_for m w' = h.
Proof.
  intros Hh [[Hkept _] _ _]. unfold generative_model_for.
  by rewrite (Hkept _ _ Hh).
Qed.

Lemma text_generation_model_for_kept (m : string) (w w' : World)
    (h : TextGenerationModel) :
  _text_generation_model_cache (_VERTEXAI_MODEL_HUB w) !! m = Some h →
  later w w' → text_generation_model_for m w' = h.
Proof.
  intros Hh [[_ Hkept] _ _]. unfold text_generation_model_for.
  by rewrite (Hkept _ _ Hh).
Qed.

Lemma sample_generative_model_keeps_handle (self : VertexAI) (prompt : Message)
    (w : World) :
  generative_model_for (model self) (_sample_generative_model self prompt w).2
  = generative_model_for (model self) w.
Proof.
  pose proof (get_generative_model_stored (model self) w) as Hstored.
  unfold _sample_generative_model. unfold mbind at 1. unfold Py_bind, bind.
  destruct (get_generative_model (model self) w) as [[h|e] wg]; simpl in *.
  - eapply generative_model_for_kept; [done|].
    apply (forward_bind (lift (_content_from_message self prompt))).
    + apply forward_lift.
    + intros content.
      apply forward_bind; [apply forward_call_generate_content|].
      intros response. apply forward_ret.
  - eapply generative_model_for_kept; [done | apply later_refl].
Qed.

Lemma sample_text_generation_model_keeps_handle (self : VertexAI)
    (prompt : Message) (w : World) :
  text_generation_model_for (model self)
    (_sample_text_generation_model self prompt w).2
  = text_generation_model_for (model self) w.
Proof.
  pose proof (get_text_generation_model_stored (model self) w) as Hstored.
  unfold _sample_text_generation_model. unfold mbind at 1. unfold Py_bind, bind.
  destruct (get_text_generation_model (model self) w) as [[h|e] wg]; simpl in *.
  - eapply text_generation_model_for_kept; [done|].
    apply forward_bind; [apply forward_call_predict|].
    intros response. apply forward_ret.
  - eapply text_generation_model_for_kept; [done | apply later_refl].
Qed.

Lemma sample_single_keeps_handle (self : VertexAI) (prompt : Message) (w : World) :
  dispatch_handle self (_sample_single self prompt w).2 = dispatch_handle self w.
Proof.
  unfold dispatch_handle, _sample_single.
  destruct (bool_decide (n (sampling_options self) > 1)); [done|].
  destruct (dict_get SUPPORTED_MODELS_AND_SETTINGS (model self)); [|done].
  simpl. destruct (String.eqb (api m) "gemini").
  { by rewrite sample_generative_model_keeps_handle. }
  destruct (String.eqb (api m) "palm"); [|done].
  by rewrite sample_text_generation_model_keeps_handle.
Qed.

Lemma sample_single_value (self : VertexAI) (prompt : Message) (w w' : World) :
  dispatch_handle self w = dispatch_handle self w' →
  (_sample_single self prompt w).1 = (_sample_single self prompt w').1.
Proof.
  unfold dispatch_handle, _sample_single.
  destruct (bool_decide (n (sampling_options self) > 1)); [done|].
  destruct (dict_get SUPPORTED_MODELS_AND_SETTINGS (model self)); [|done].
  simpl. destruct (String.eqb (api m) "gemini").
  { intros [= H]. by rewrite !sample_generative_model_value, H. }
  destruct (String.eqb (api m) "palm"); [|done].
  intros [= H]. by rewrite !sample_text_generation_model_value, H.
Qed.


Section run_tasks_facts.
Context {A B : Type} (func : A → Py B) (inputs : list A).

(** A property [I] of the process that every call keeps, and under which
    what a call returns or raises is [g] of its input alone. *)
Variable I : World → Prop.
Variable g : A → outcome B.
Hypothesis func_value : ∀ x w, I w → (func x w).1 = g x.
Hypothesis func_keeps : ∀ x w, I w → I (func x w).2.

(** Every completed slot holds the outcome of the call on its own input. *)
Definition slots_positional (slots : list (option (outcome B))) : Prop :=
  ∀ i o, slots !! i = Some (Some o) → ∃ x, inputs !! i = Some x ∧ o = g x.

Lemma run_tasks_positional (order : list nat) :
  ∀ slots w,
    I w → length slots = length inputs → slots_positional slots →
    I (run_tasks func inputs order slots w).2
    ∧ length (run_tasks func inputs order slots w).1 = length inputs
    ∧ slots_positional (run_tasks func inputs order slots w).1
    ∧ ∀ i, (i < length inputs)%nat →
           (i ∈ order ∨ ∃ o, slots !! i = Some (Some o)) →
           ∃ o, (run_tasks func inputs order slots w).1 !! i = Some (Some o).
Proof.
  induction order as [|j order IH]; intros slots w HI Hlen Hpos; simpl.
  { repeat split; try done. intros i Hi [Hin | Hfilled]; [|done].
    by apply elem_of_nil in Hin. }
  assert (∀ slots' w',
            I w' → length slots' = length inputs → slots_positional slots' →
            (∀ i, (i = j ∨ ∃ o, slots !! i = Some (Some o)) →
                  (i < length inputs)%nat →
                  ∃ o, slots' !! i = Some (Some o)) →
            I (run_tasks func inputs order slots' w').2
            ∧ length (run_tasks func inputs order slots' w').1 = length inputs
            ∧ slots_positional (run_tasks func inputs order slots' w').1
            ∧ ∀ i, (i < length inputs)%nat →
                   (i ∈ j :: order ∨ ∃ o, slots !! i = Some (Some o)) →
                   ∃ o, (run_tasks func inputs order slots' w').1 !! i
                        = Some (Some o)) as Hstep.
  { intros slots' w' HI' Hlen' Hpos' Hfill.
    destruct (IH slots' w' HI' Hlen' Hpos') as (H1 & H2 & H3 & H4).
    repeat split; try done. intros i Hi Hcase. apply H4; [done|].
    destruct Hcase as [Hin | Hfilled].
    - apply elem_of_cons in Hin as [-> | Hin]; [right | by left].
      apply Hfill; [by left | done].
    - right. apply Hfill; [by right | done]. }
  destruct (inputs !! j) as [x|] eqn:Hx.
  - destruct (slots !! j) as [[o|]|] eqn:Hj.
    + apply Hstep; try done. intros i [-> | Hfilled] _; [by eexists | done].
    + pose proof (func_value x w HI) as Hv. pose proof (func_keeps x w HI) as Hk.
      destruct (func x w) as [o w1]. simpl in *. subst o.
      apply Hstep; [done | by rewrite length_insert | |].
      * intros i o Hi. destruct (decide (i = j)) as [->|Hne].
        -- rewrite list_lookup_insert_eq in Hi by (rewrite Hlen; by eapply lookup_lt_Some).
           injection Hi as <-. by exists x.
        -- rewrite list_lookup_insert_ne in Hi by done. by apply Hpos.
      * intros i [-> | [o Hfilled]] Hi.
        -- rewrite list_lookup_insert_eq by lia. by eexists.
        -- destruct (decide (j = i)) as [->|Hne]; [congruence|].
           rewrite list_lookup_insert_ne by done. by eexists.
    + apply lookup_ge_None in Hj. apply lookup_lt_Some in Hx. lia.
  - apply Hstep; try done. intros i [-> | Hfilled] Hi; [|done].
    apply lookup_ge_None in Hx. lia.
Qed.

Lemma gather_completed (os : list (outcome B)) :
  gather (Some <$> os) = Some (collect os).
Proof.
  induction os as [|[b|e] os IH]; [done | | done].
  rewrite fmap_cons. cbn [gather collect]. rewrite IH. by destruct (collect os).
Qed.

(** With every position in the completion order, the executor returns the
    outcomes of the calls collected in input order. *)
Lemma concurrent_execute_in_input_order (key : string) (workers : Z)
    (order : list nat) (w : World) :
  I (use_executor key workers w).2 →
  (∀ i, (i < length inputs)%nat → i ∈ order) →
  (concurrent_execute func inputs key workers order w).1
  = Some (collect (g <$> inputs)).
Proof.
  intros HI Hall. unfold concurrent_execute.
  destruct (use_executor key workers w) as [u w0]. simpl in HI.
  pose proof (run_tasks_positional order (replicate (length inputs) None) w0 HI)
    as Hrun.
  destruct Hrun as (_ & Hlen & Hpos & Hfilled).
  { by rewrite length_replicate. }
  { intros i o Hi. apply lookup_replicate in Hi as [? _]. done. }
  destruct (run_tasks func inputs order _ w0) as [slots w1]. simpl in *.
  rewrite <- gather_completed. f_equal.
  apply list_eq. intros i. rewrite !list_lookup_fmap.
  destruct (inputs !! i) as [x|] eqn:Hx; simpl.
  - destruct (Hfilled i) as [o Ho]; [by eapply lookup_lt_Some | left | ].
    { apply Hall. by eapply lookup_lt_Some. }
    rewrite Ho. destruct (Hpos i o Ho) as (x' & Hx' & ->). congruence.
  - apply lookup_ge_None. rewrite Hlen. by apply lookup_ge_None.
Qed.

End run_tasks_facts.

Lemma collect_Return {B : Type} (os : list (outcome B)) (bs : list B) :
  collect os = Return bs →
  length bs = length os
  ∧ ∀ i o, os !! i = Some o → ∃ b, bs !! i = Some b ∧ o = Return b.
Proof.
  revert bs. induction os as [|[b|e] os IH]; intros bs; simpl; [| |done].
  - intros [= <-]. split; [done|]. intros i o Hi. by rewrite lookup_nil in Hi.
  - destruct (collect os) as [bs'|]; [|done]. intros [= <-].
    destruct (IH bs' eq_refl) as [Hlen Hpos]. split; [simpl; lia|].
    intros [|i] o Hi; simpl in *; [|by apply Hpos].
    injection Hi as <-. by exists b.
Qed.


Lemma content_loop_same_fields (self : VertexAI) (v : option bool)
    (cs : list lf_chunk) :
  ∀ acc, content_loop (set_cached_api_initialized self v) cs acc
         = content_loop self cs acc.
Proof.
  induction cs as [|c cs IH]; intros acc; [done|].
  destruct c; simpl; [apply IH | | done].
  destruct (multimodal self); [apply IH | done].
Qed.

Lemma sample_single_same_fields (self : VertexAI) (v : option bool)
    (prompt : Message) (w : World) :
  _sample_single (set_cached_api_initialized self v) prompt w
  = _sample_single self prompt w.
Proof.
  unfold _sample_single, _sample_generative_model, _content_from_message.
  simpl. by rewrite content_loop_same_fields.
Qed.

(** C1. Take a completion order that has every position of the prompt list,
    an adapter whose model is in the registry and whose initialization
    succeeds.  Then [_sample] returns, whatever the completion order, what
    sampling each prompt on its own gives, collected in the order of the
    prompts: the exception of the first prompt (in input order) whose
    sampling raised, or else the list of the results.  A returned list has
    one result per prompt, and the result at each position is the one of
    the prompt at that position. *)
Theorem sample_results_in_input_order (self : VertexAI) (prompts : list Message)
    (order : list nat) (w : World) :
  (∀ i, (i < length prompts)%nat → i ∈ order) →
  (_api_initialized self w).1.1 = Return true →
  model_accepted (model self) = true →
  (_sample self prompts order w).1.1
  = Some (collect ((λ p, (_sample_single self p (_api_initialized self w).2).1)
                     <$> prompts))
  ∧ ∀ results,
      (_sample self prompts order w).1.1 = Some (Return results) →
      length results = length prompts
      ∧ ∀ i p, prompts !! i = Some p →
               ∃ r, results !! i = Some r
                    ∧ (_sample_single self p (_api_initialized self w).2).1
                      = Return r.
Proof.
  intros Hall Hinit Hacc.
  assert ((_sample self prompts order w).1.1
          = Some (collect ((λ p, (_sample_single self p
                                    (_api_initialized self w).2).1)
                             <$> prompts))) as Heq.
  { unfold _sample.
    pose proof (api_initialized_same_fields self w) as Hself.
    destruct (_api_initialized self w) as [[[v|e] self1] w1]; simpl in *;
      [injection Hinit as -> | discriminate].
    destruct (registry_has_accepted _ Hacc) as [setting Hget].
    assert (max_concurrency self1
            = Return (rate_to_max_concurrency (rpm setting) 0)
            ∧ ∀ p w', _sample_single self1 p w' = _sample_single self p w')
      as [-> Hsame].
    { unfold max_concurrency.
      destruct Hself as [-> | [v ->]];
        [|change (model (set_cached_api_initialized self v)) with (model self)];
        rewrite Hget; split; try done.
      intros p w'. apply sample_single_same_fields. }
    simpl.
    pose proof (concurrent_execute_in_input_order (_sample_single self1) prompts
                  (λ w', dispatch_handle self1 w' = dispatch_handle self1 w1)
                  (λ p, (_sample_single self1 p w1).1)) as Hexec.
    specialize (Hexec (λ p w' Hw', sample_single_value self1 p w' w1 Hw')).
    specialize (Hexec (λ p w' Hw',
                  eq_trans (sample_single_keeps_handle self1 p w') Hw')).
    specialize (Hexec (resource_id self1)
                  (rate_to_max_concurrency (rpm setting) 0) order w1 eq_refl Hall).
    destruct (concurrent_execute _ _ _ _ _ _) as [r w2]. simpl in *.
    rewrite Hexec. do 2 f_equal. apply list_fmap_ext. intros _ p _.
    by rewrite Hsame. }
  split; [done|]. intros results Hres. rewrite Heq in Hres.
  injection Hres as Hres. apply collect_Return in Hres as [Hlen Hpos].
  rewrite length_fmap in Hlen. split; [done|]. intros i p Hp.
  destruct (Hpos i ((_sample_single self p (_api_initialized self w).2).1))
    as (r & Hr & Hval).
  { by rewrite list_lookup_fmap, Hp. }
  by exists r.
Qed.

(** * Further properties of the code *)

(** ** Rebinding and initialization *)

Lemma api_initialized_returns_cached (self self1 : VertexAI) (w w1 : World)
    (v : bool) :
  _api_initialized self w = (Return v, self1, w1) →
  self1 = set_cached_api_initialized self (Some v).
Proof.
  unfold _api_initialized. destruct (cached_api_initialized self) as [c|] eqn:Hc.
  - intros [= <- <- <-]. destruct self. simpl in *. by subst.
  - destruct (_api_initialized_body self w) as [[v'|e] w']; [|done].
    by intros [= <- <- <-].
Qed.

(** X1. After a read of [_api_initialized] has returned [True], later reads
    on the instance return it whatever the environment has become; but
    once [_on_bound] has run (the instance was rebound), the next read
    resolves project and location again: it raises when the project no
    longer resolves, and calls [vertexai.init] once more when both do. *)
Theorem rebinding_reinitializes (self self1 : VertexAI) (w w1 w2 : World) :
  _api_initialized self w = (Return true, self1, w1) →
  _api_initialized self1 w2 = (Return true, self1, w2)
  ∧ (unresolved (project self) (environ w2 !! "VERTEXAI_PROJECT") →
     _api_initialized (_on_bound self1) w2
     = (Raise (ValueError project_missing_message), _on_bound self1, w2))
  ∧ (∀ p l,
       resolves_to (project self) (environ w2 !! "VERTEXAI_PROJECT") p →
       resolves_to (location self) (environ w2 !! "VERTEXAI_LOCATION") l →
       _api_initialized (_on_bound self1) w2
       = (Return true, self1,
          (sdk (vertexai_init p l (credentials self)) w2).2)).
Proof.
  intros ->%api_initialized_returns_cached. split; [done|].
  set (rebound := _on_bound (set_cached_api_initialized self (Some true))).
  unfold _api_initialized.
  change (cached_api_initialized rebound) with (@None bool). split.
  - intros Hp.
    by rewrite (api_initialized_body_no_project rebound w2 Hp).
  - intros p l Hp Hl.
    by rewrite (api_initialized_body_ok rebound w2 p l Hp Hl).
Qed.

(** ** Sampling on an adapter that cannot start *)

(** X2. On an instance that is not initialized and whose project does not
    resolve, [_sample] raises the project error for every list of prompts
    and every completion order, and nothing has happened: the instance and
    the process are as before (no executor was used, the hub was not
    asked, no call went to the SDK).  The same holds with the location
    error when only the location does not resolve. *)
Theorem sample_raises_configuration_error (self : VertexAI)
    (prompts : list Message) (order : list nat) (w : World) :
  cached_api_initialized self = None →
  (unresolved (project self) (environ w !! "VERTEXAI_PROJECT") →
   _sample self prompts order w
   = (Some (Raise (ValueError project_missing_message)), self, w))
  ∧ (∀ p,
       resolves_to (project self) (environ w !! "VERTEXAI_PROJECT") p →
       unresolved (location self) (environ w !! "VERTEXAI_LOCATION") →
       _sample self prompts order w
       = (Some (Raise (ValueError location_missing_message)), self, w)).
Proof.
  intros Hnone. unfold _sample, _api_initialized. rewrite Hnone. split.
  - intros Hp. by rewrite (api_initialized_body_no_project _ _ Hp).
  - intros p Hp Hl. by rewrite (api_initialized_body_no_location _ _ _ Hp Hl).
Qed.

(** ** The errors sampling can raise *)

Lemma sample_single_errors (self : VertexAI) (prompt : Message) (w : World)
    (e : exn) :
  model_accepted (model self) = true →
  (_sample_single self prompt w).1 = Raise e →
  e = ValueError (n_not_supported_message (n (sampling_options self)))
  ∨ (∃ c, e = ValueError ("Unsupported modality: " +:+ repr c))
  ∨ (∃ detail, e = ProviderError detail).
Proof.
  intros Hacc. destruct (registry_has_accepted _ Hacc) as [setting Hget].
  pose proof (registry_api_families _ _ Hget) as Hapi.
  unfold _sample_single.
  destruct (bool_decide (n (sampling_options self) > 1)).
  { intros [= <-]. by left. }
  rewrite Hget. cbn zeta. destruct Hapi as [-> | ->].
  - change (String.eqb "gemini" "gemini") with true. cbv iota.
    intros [H | H]%sample_generative_model_errors; auto.
  - change (String.eqb "palm" "gemini") with false.
    change (String.eqb "palm" "palm") with true. cbv iota.
    intros H%sample_text_generation_model_errors. auto.
Qed.

Lemma run_tasks_outputs {A B : Type} (func : A → Py B) (inputs : list A)
    (Q : outcome B → Prop) :
  (∀ x w, Q (func x w).1) →
  ∀ order slots w,
    (∀ i o, slots !! i = Some (Some o) → Q o) →
    ∀ i o, (run_tasks func inputs order slots w).1 !! i = Some (Some o) → Q o.
Proof.
  intros Hf. induction order as [|j order IH]; intros slots w Hslots; simpl.
  { done. }
  destruct (inputs !! j) as [x|]; [|by apply IH].
  destruct (slots !! j) as [[o'|]|]; try by apply IH.
  pose proof (Hf x w) as Hx. destruct (func x w) as [o' w1]. simpl in Hx.
  apply IH. intros i o. destruct (decide (i = j)) as [->|Hne].
  - destruct (decide (j < length slots)%nat).
    + rewrite list_lookup_insert_eq by done. by intros [= <-].
    + rewrite list_insert_ge by lia. apply Hslots.
  - rewrite list_lookup_insert_ne by done. apply Hslots.
Qed.

Lemma gather_Raise {B : Type} (slots : list (option (outcome B))) (e : exn) :
  gather slots = Some (Raise e) → ∃ i, slots !! i = Some (Some (Raise e)).
Proof.
  induction slots as [|[[b|e']|] slots IH]; simpl; try done.
  - destruct (gather slots) as [[bs|e'']|]; try done.
    intros [= ->]. destruct (IH eq_refl) as [i Hi]. by exists (S i).
  - intros [= ->]. by exists 0%nat.
Qed.

Lemma api_initialized_outcome (self : VertexAI) (w : World) :
  match (_api_initialized self w).1.1 with
  | Return v => cached_api_initialized self = Some false ∨ v = true
  | Raise e =>
      e = ValueError project_missing_message
      ∨ e = ValueError location_missing_message
  end.
Proof.
  unfold _api_initialized. destruct (cached_api_initialized self) as [[|]|].
  - by right.
  - by left.
  - rewrite api_initialized_body_unfold.
    destruct (negb (truthy (py_or (project self) _))); [by left|].
    destruct (negb (truthy (py_or (location self) _))); [by right|].
    by right.
Qed.

(** X3. An adapter whose model is a key of the registry never takes the
    missing-key path: [max_concurrency] returns a number, and every error
    [_sample] raises, for any prompts and completion order, is the project
    or the location error of initialization, the error about [n] greater
    than 1, an unsupported-modality error or an error of the provider.  So
    it is never a [KeyError], never the failure of the assertion on
    [_api_initialized], and never the [Unsupported API] error. *)
Theorem sample_errors (self : VertexAI) (prompts : list Message)
    (order : list nat) (w : World) (e : exn) :
  model_accepted (model self) = true →
  cached_api_initialized self ≠ Some false →
  (∃ workers, max_concurrency self = Return workers)
  ∧ ((_sample self prompts order w).1.1 = Some (Raise e) →
     (e = ValueError project_missing_message
      ∨ e = ValueError location_missing_message
      ∨ e = ValueError (n_not_supported_message (n (sampling_options self)))
      ∨ (∃ c, e = ValueError ("Unsupported modality: " +:+ repr c))
      ∨ (∃ detail, e = ProviderError detail))
     ∧ (∀ key, e ≠ KeyError key)
     ∧ (∀ msg, e ≠ AssertionError msg)
     ∧ (∀ a, e ≠ ValueError (unsupported_api_message a))).
Proof.
  intros Hacc Hcached.
  destruct (registry_has_accepted _ Hacc) as [setting Hget].
  split.
  { unfold max_concurrency. rewrite Hget. by eexists. }
  intros Hraise.
  assert (e = ValueError project_missing_message
          ∨ e = ValueError location_missing_message
          ∨ e = ValueError (n_not_supported_message (n (sampling_options self)))
          ∨ (∃ c, e = ValueError ("Unsupported modality: " +:+ repr c))
          ∨ (∃ detail, e = ProviderError detail)) as Hkind.
  { revert Hraise. unfold _sample.
    pose proof (api_initialized_outcome self w) as Hinit.
    pose proof (api_initialized_same_fields self w) as Hself.
    destruct (_api_initialized self w) as [[[v|e'] self1] w1];
      cbn [fst snd] in *.
    2:{ intros [= <-]. destruct Hinit as [-> | ->]; auto. }
    destruct Hinit as [Hfalse | ->]; [done|]. cbn [negb]. cbv iota.
    assert (max_concurrency self1
            = Return (rate_to_max_concurrency (rpm setting) 0)
            ∧ (∀ p w', _sample_single self1 p w' = _sample_single self p w'))
      as [-> Hsame].
    { unfold max_concurrency.
      destruct Hself as [-> | [v ->]];
        [|change (model (set_cached_api_initialized self v)) with (model self)];
        rewrite Hget; split; try done.
      intros p w'. apply sample_single_same_fields. }
    unfold concurrent_execute.
    destruct (use_executor _ _ w1) as [u w0].
    pose proof (run_tasks_outputs (_sample_single self1) prompts
                  (λ o, ∀ e, o = Raise e →
                     e = ValueError
                           (n_not_supported_message (n (sampling_options self)))
                     ∨ (∃ c, e = ValueError ("Unsupported modality: " +:+ repr c))
                     ∨ (∃ detail, e = ProviderError detail))) as Hout.
    specialize (Hout (λ p w' e' He',
                  sample_single_errors self p w' e' Hacc
                    (eq_trans (f_equal fst (eq_sym (Hsame p w'))) He'))).
    specialize (Hout order (replicate (length prompts) None) w0).
    destruct (run_tasks _ _ _ _ _) as [slots w2]. cbn [fst snd] in *.
    intros [= Hg]. apply gather_Raise in Hg as [i Hi].
    right. right. eapply Hout; [|exact Hi|done].
    intros j o Hj. apply lookup_replicate in Hj as [? _]. done. }
  split; [done|].
  repeat split; intros x ->;
    destruct Hkind as [H | [H | [H | [[c H] | [d H]]]]];
    try discriminate H;
    revert H;
    unfold project_missing_message, location_missing_message,
      n_not_supported_message, unsupported_api_message;
    simpl; discriminate.
Qed.

(** ** The calls one prompt makes *)

Lemma sample_generative_model_calls (self : VertexAI) (prompt : Message) (w : World) :
  sdk_calls (_sample_generative_model self prompt w).2
  = (sdk_calls w
     ++ match _generative_model_cache (_VERTEXAI_MODEL_HUB w) !! model self with
        | Some _ => []
        | None => [GenerativeModel_new (model self) (next_oid w)]
        end
     ++ match _content_from_message self prompt with
        | Return content =>
            [generate_content (generative_model_for (model self) w) content
               (_generation_config (sampling_options self))]
        | Raise _ => []
        end)%list.
Proof.
  unfold _sample_generative_model, call_generate_content, get_generative_model,
    generative_model_for, GenerativeModel_ctor, store_generative_model.
  run_py.
  destruct (_generative_model_cache (_VERTEXAI_MODEL_HUB w) !! model self);
    simpl;
    (destruct (_content_from_message self prompt); simpl;
     [destruct (provider_generate_content _ _ _); simpl|]);
    by rewrite ?app_nil_r, <- ?app_assoc.
Qed.

Lemma sample_text_generation_model_calls (self : VertexAI) (prompt : Message)
    (w : World) :
  sdk_calls (_sample_text_generation_model self prompt w).2
  = (sdk_calls w
     ++ match _text_generation_model_cache (_VERTEXAI_MODEL_HUB w) !! model self with
        | Some _ => []
        | None => [TextGenerationModel_from_pretrained (model self) (next_oid w)]
        end
     ++ [predict (text_generation_model_for (model self) w) (text prompt)
           {| po_temperature := temperature (sampling_options self);
              po_top_k := top_k (sampling_options self);
              po_top_p := top_p (sampling_options self);
              po_max_output_tokens := max_tokens (sampling_options self);
              po_stop_sequences := stop (sampling_options self) |}])%list.
Proof.
  unfold _sample_text_generation_model, call_predict, get_text_generation_model,
    text_generation_model_for, TextGenerationModel_ctor,
    store_text_generation_model.
  run_py.
  destruct (_text_generation_model_cache (_VERTEXAI_MODEL_HUB w) !! model self);
    simpl; destruct (provider_predict _ _ _); simpl;
    by rewrite ?app_nil_r, <- ?app_assoc.
Qed.

(** X4. When the prompt's content builds, [_sample_generative_model] sends
    exactly one [generate_content] request, whether the provider then
    answers or fails: to the handle the hub yields for the adapter's model,
    with the content built, and with a generation config whose five fields
    are the sampling options' temperature, top_p, top_k, max_tokens and
    stop, unchanged.  The only other call is the construction of the
    handle, made before the request and only when the hub did not hold
    one. *)
Theorem generative_request_sent (self : VertexAI) (prompt : Message) (w : World)
    (content : list Part) :
  _content_from_message self prompt = Return content →
  sdk_calls (_sample_generative_model self prompt w).2
  = (sdk_calls w
     ++ match _generative_model_cache (_VERTEXAI_MODEL_HUB w) !! model self with
        | Some _ => []
        | None => [GenerativeModel_new (model self) (next_oid w)]
        end
     ++ [generate_content (generative_model_for (model self) w) content
           {| gc_temperature := temperature (sampling_options self);
              gc_top_p := top_p (sampling_options self);
              gc_top_k := top_k (sampling_options self);
              gc_max_output_tokens := max_tokens (sampling_options self);
              gc_stop_sequences := stop (sampling_options self) |}])%list
  ∧ provider_requests (_sample_generative_model self prompt w).2
    = S (provider_requests w).
Proof.
  intros Hc. pose proof (sample_generative_model_calls self prompt w) as Hcalls.
  rewrite Hc in Hcalls. split; [done|].
  unfold provider_requests. rewrite Hcalls, !filter_app, !length_app.
  destruct (_generative_model_cache (_VERTEXAI_MODEL_HUB w) !! model self);
    simpl; lia.
Qed.

(** X5. When the prompt has a chunk the adapter does not accept,
    [_sample_generative_model] raises the [Unsupported modality] error and
    sends no request; but it has already asked the hub for the handle,
    which was built if the hub did not hold one and is cached from then
    on. *)
Theorem unsupported_modality_after_handle (self : VertexAI) (prompt : Message)
    (w : World) (e : exn) :
  _content_from_message self prompt = Raise e →
  (_sample_generative_model self prompt w).1 = Raise e
  ∧ provider_requests (_sample_generative_model self prompt w).2
    = provider_requests w
  ∧ sdk_calls (_sample_generative_model self prompt w).2
    = (sdk_calls w
       ++ match _generative_model_cache (_VERTEXAI_MODEL_HUB w) !! model self with
          | Some _ => []
          | None => [GenerativeModel_new (model self) (next_oid w)]
          end)%list
  ∧ _generative_model_cache
      (_VERTEXAI_MODEL_HUB (_sample_generative_model self prompt w).2)
      !! model self
    = Some (generative_model_for (model self) w).
Proof.
  intros Hc. pose proof (sample_generative_model_calls self prompt w) as Hcalls.
  rewrite Hc, app_nil_r in Hcalls.
  split; [|split; [|split; [done|]]].
  - rewrite sample_generative_model_value. unfold generative_output.
    by rewrite Hc.
  - unfold provider_requests. rewrite Hcalls, filter_app, length_app.
    destruct (_generative_model_cache (_VERTEXAI_MODEL_HUB w) !! model self);
      simpl; lia.
  - pose proof (get_generative_model_stored (model self) w) as Hstored.
    unfold _sample_generative_model. unfold mbind at 1. unfold Py_bind, bind.
    destruct (get_generative_model (model self) w) as [[h|e'] wg];
      simpl in *; [|done].
    rewrite Hc. by run_py.
Qed.

(** X6. [_sample_text_generation_model] always sends exactly one [predict]
    request: to the handle the hub yields for the adapter's model, with the
    prompt's text and with the sampling options' temperature, top_k,
    top_p, max_tokens and stop, unchanged.  The only other call is the
    loading of the handle when the hub did not hold one, and the only
    error it can raise is the provider's. *)
Theorem text_generation_request_sent (self : VertexAI) (prompt : Message)
    (w : World) :
  sdk_calls (_sample_text_generation_model self prompt w).2
  = (sdk_calls w
     ++ match _text_generation_model_cache (_VERTEXAI_MODEL_HUB w) !! model self with
        | Some _ => []
        | None => [TextGenerationModel_from_pretrained (model self) (next_oid w)]
        end
     ++ [predict (text_generation_model_for (model self) w) (text prompt)
           {| po_temperature := temperature (sampling_options self);
              po_top_k := top_k (sampling_options self);
              po_top_p := top_p (sampling_options self);
              po_max_output_tokens := max_tokens (sampling_options self);
              po_stop_sequences := stop (sampling_options self) |}])%list
  ∧ provider_requests (_sample_text_generation_model self prompt w).2
    = S (provider_requests w)
  ∧ ∀ e, (_sample_text_generation_model self prompt w).1 = Raise e →
         ∃ detail, e = ProviderError detail.
Proof.
  pose proof (sample_text_generation_model_calls self prompt w) as Hcalls.
  split; [done|]. split.
  - unfold provider_requests. rewrite Hcalls, !filter_app, !length_app.
    destruct (_text_generation_model_cache (_VERTEXAI_MODEL_HUB w) !! model self);
      simpl; lia.
  - intros e. apply sample_text_generation_model_errors.
Qed.

(** X7. For a model on the PaLM API, sampling looks at the prompt's text
    only: two adapters with the same model and sampling options, whatever
    their multimodal flags and other fields, and two prompts with the same
    text, whatever their chunks (images included), give the same result
    and leave the process in the same state. *)
Theorem text_path_ignores_chunks (self self' : VertexAI) (prompt prompt' : Message)
    (setting : ModelSetting) (w : World) :
  dict_get SUPPORTED_MODELS_AND_SETTINGS (model self) = Some setting →
  api setting = "palm" →
  model self' = model self →
  sampling_options self' = sampling_options self →
  text prompt' = text prompt →
  _sample_single self' prompt' w = _sample_single self prompt w.
Proof.
  intros Hget Hapi Hm Ho Ht. unfold _sample_single.
  rewrite Hm, Ho, Hget. cbn zeta. rewrite Hapi.
  change (String.eqb "palm" "gemini") with false.
  change (String.eqb "palm" "palm") with true. cbv iota.
  destruct (bool_decide (n (sampling_options self) > 1)); [done|].
  unfold _sample_text_generation_model. by rewrite Hm, Ho, Ht.
Qed.

Lemma content_builds_iff (self : VertexAI) (prompt : Message) :
  forallb (accepts self) (chunk prompt)
  = match _content_from_message self prompt with
    | Return _ => true
    | Raise _ => false
    end.
Proof.
  unfold _content_from_message.
  destruct (content_loop self (chunk prompt) []) as [parts|e] eqn:H.
  - apply content_loop_return in H as (new & _ & Hall).
    apply turned_into_accepts in Hall. apply forallb_forall.
    intros c Hc%list_elem_of_In. by eapply Forall_forall in Hall.
  - apply content_loop_raise in H as (before & c & after & -> & _ & Hc & _).
    apply not_true_is_false. intros Hall.
    rewrite forallb_forall in Hall. specialize (Hall c).
    rewrite Hall in Hc; [done|]. apply in_or_app. right. by left.
Qed.

Lemma sample_single_log (self : VertexAI) (prompt : Message) (w : World) :
  ∃ more,
    sdk_calls (_sample_single self prompt w).2 = (sdk_calls w ++ more)%list
    ∧ filter (λ c, is_vertexai_init c = true) more = []
    ∧ length (filter (λ c, is_provider_request c = true) more)
      = if sends_request self prompt then 1%nat else 0%nat.
Proof.
  unfold _sample_single, sends_request.
  destruct (bool_decide (n (sampling_options self) > 1)).
  { exists []. by rewrite app_nil_r. }
  destruct (dict_get SUPPORTED_MODELS_AND_SETTINGS (model self)) as [setting|].
  2:{ exists []. by rewrite app_nil_r. }
  cbn zeta. destruct (String.eqb (api setting) "gemini").
  { rewrite sample_generative_model_calls, content_builds_iff.
    eexists. split; [done|].
    destruct (_generative_model_cache (_VERTEXAI_MODEL_HUB w) !! model self);
      by destruct (_content_from_message self prompt). }
  destruct (String.eqb (api setting) "palm").
  - rewrite sample_text_generation_model_calls. eexists. split; [done|].
    by destruct (_text_generation_model_cache (_VERTEXAI_MODEL_HUB w)
                   !! model self).
  - exists []. by rewrite app_nil_r.
Qed.

(** X8. Sampling one prompt sends at most one request to the provider and
    never retries: exactly one when at most one sample is wanted, the model
    is in the registry and, on the generative API, every chunk of the
    prompt is accepted; none otherwise.  It never initializes the SDK and
    never uses an executor. *)
Theorem sample_single_requests (self : VertexAI) (prompt : Message) (w : World) :
  provider_requests (_sample_single self prompt w).2
  = (provider_requests w + if sends_request self prompt then 1 else 0)%nat
  ∧ sdk_initializations (_sample_single self prompt w).2 = sdk_initializations w
  ∧ executor_uses (_sample_single self prompt w).2 = executor_uses w.
Proof.
  destruct (sample_single_log self prompt w) as (more & Hcalls & Hinit & Hreq).
  unfold provider_requests, sdk_initializations.
  rewrite Hcalls, !filter_app, !length_app, Hinit, Hreq. simpl.
  repeat split; [lia|]. apply forward_sample_single.
Qed.

(** ** Prompt content *)

Lemma content_loop_acc (self : VertexAI) (cs : list lf_chunk) :
  ∀ acc,
    content_loop self cs acc
    = match content_loop self cs [] with
      | Return parts => Return (acc ++ parts)%list
      | Raise e => Raise e
      end.
Proof.
  induction cs as [|c cs IH]; intros acc; simpl.
  { by rewrite app_nil_r. }
  destruct c as [s|bytes|kind payload]; [| |done].
  - rewrite (IH (acc ++ [TextPart s])%list), (IH [TextPart s]).
    destruct (content_loop self cs []); [|done]. by rewrite <- app_assoc.
  - destruct (multimodal self); [|done].
    rewrite (IH (acc ++ [Image_from_bytes bytes])%list),
      (IH [Image_from_bytes bytes]).
    destruct (content_loop self cs []); [|done]. by rewrite <- app_assoc.
Qed.

Lemma content_loop_app (self : VertexAI) (cs1 cs2 : list lf_chunk) :
  ∀ acc,
    content_loop self (cs1 ++ cs2) acc
    = match content_loop self cs1 acc with
      | Return acc' => content_loop self cs2 acc'
      | Raise e => Raise e
      end.
Proof.
  induction cs1 as [|c cs1 IH]; intros acc; simpl; [done|].
  destruct c as [s|bytes|kind payload]; [apply IH | | done].
  destruct (multimodal self); [apply IH | done].
Qed.

(** X9. The content of a prompt whose chunks are those of a first prompt
    followed by those of a second is the content of the first followed by
    the content of the second; it raises what the first raises, else what
    the second raises.  A prompt without chunks has the empty content. *)
Theorem content_of_appended_chunks (self : VertexAI) (p p1 p2 : Message) :
  chunk p = (chunk p1 ++ chunk p2)%list →
  _content_from_message self p
  = match _content_from_message self p1 with
    | Raise e => Raise e
    | Return parts1 =>
        match _content_from_message self p2 with
        | Raise e => Raise e
        | Return parts2 => Return (parts1 ++ parts2)%list
        end
    end
  ∧ (chunk p = [] → _content_from_message self p = Return []).
Proof.
  intros Hp. unfold _content_from_message. split; [|by intros ->].
  rewrite Hp, content_loop_app.
  destruct (content_loop self (chunk p1) []) as [parts1|e]; [|done].
  apply content_loop_acc.
Qed.

(** X10. A prompt that an adapter without multimodal support accepts is
    made of text only, and every adapter, multimodal or not, builds the
    same content from it: turning [multimodal] on never breaks a prompt
    nor changes what is sent for it. *)
Theorem text_only_content_for_every_adapter (self : VertexAI) (prompt : Message)
    (parts : list Part) :
  multimodal self = false →
  _content_from_message self prompt = Return parts →
  (∀ c, c ∈ chunk prompt → ∃ s, c = StrChunk s)
  ∧ ∀ other, _content_from_message other prompt = Return parts.
Proof.
  unfold _content_from_message. intros Hmm.
  generalize (@nil Part). revert parts.
  induction (chunk prompt) as [|c cs IH]; intros parts acc H; simpl in *.
  { split; [by intros c ?%elem_of_nil | done]. }
  destruct c as [s|bytes|kind payload]; [| by rewrite Hmm in H | done].
  destruct (IH _ _ H) as [Htext Hother]. split; [|done].
  intros c [-> | Hc]%elem_of_cons; [by eexists | by apply Htext].
Qed.

(** ** What the hub's getters leave alone *)

(** X11. A getter of the hub changes nothing but its own cache entry for
    the model identifier asked: [get_generative_model] leaves the cache of
    text-generation models and every other generative entry as they were,
    and [get_text_generation_model] does the same the other way round.
    Neither touches the environment or an executor. *)
Theorem hub_getters_frame (model_id : string) (w : World) :
  (_text_generation_model_cache
     (_VERTEXAI_MODEL_HUB (get_generative_model model_id w).2)
   = _text_generation_model_cache (_VERTEXAI_MODEL_HUB w)
   ∧ (∀ m, m ≠ model_id →
           _generative_model_cache
             (_VERTEXAI_MODEL_HUB (get_generative_model model_id w).2) !! m
           = _generative_model_cache (_VERTEXAI_MODEL_HUB w) !! m)
   ∧ environ (get_generative_model model_id w).2 = environ w
   ∧ executor_uses (get_generative_model model_id w).2 = executor_uses w)
  ∧ (_generative_model_cache
       (_VERTEXAI_MODEL_HUB (get_text_generation_model model_id w).2)
     = _generative_model_cache (_VERTEXAI_MODEL_HUB w)
     ∧ (∀ m, m ≠ model_id →
             _text_generation_model_cache
               (_VERTEXAI_MODEL_HUB (get_text_generation_model model_id w).2) !! m
             = _text_generation_model_cache (_VERTEXAI_MODEL_HUB w) !! m)
     ∧ environ (get_text_generation_model model_id w).2 = environ w
     ∧ executor_uses (get_text_generation_model model_id w).2 = executor_uses w).
Proof.
  unfold get_generative_model, get_text_generation_model, GenerativeModel_ctor,
    TextGenerationModel_ctor, store_generative_model,
    store_text_generation_model.
  run_py. split.
  - destruct (_generative_model_cache (_VERTEXAI_MODEL_HUB w) !! model_id);
      simpl; repeat split; try done.
    intros m Hm. by rewrite lookup_insert_ne.
  - destruct (_text_generation_model_cache (_VERTEXAI_MODEL_HUB w) !! model_id);
      simpl; repeat split; try done.
    intros m Hm. by rewrite lookup_insert_ne.
Qed.

(** ** Properties kept along a computation *)

Lemma keeps_ret {A : Type} (P : World → Prop) (a : A) : keeps P (mret a : Py A).
Proof. by intros w. Qed.

Lemma keeps_raise {A : Type} (P : World → Prop) (e : exn) :
  keeps P (raise e : Py A).
Proof. by intros w. Qed.

Lemma keeps_lift {A : Type} (P : World → Prop) (o : outcome A) : keeps P (lift o).
Proof. by intros w. Qed.

Lemma keeps_bind {A B : Type} (P : World → Prop) (c : Py A) (k : A → Py B) :
  keeps P c → (∀ a, keeps P (k a)) → keeps P (c ≫= k).
Proof.
  intros Hc Hk w HP. unfold mbind, Py_bind, bind.
  specialize (Hc w HP). destruct (c w) as [[a|e] w1]; simpl in *; [|done].
  by apply Hk.
Qed.

Lemma keeps_py_or_else (P : World → Prop) (a : option string) (name : string) :
  keeps P (py_or_else a (os_environ_get name)).
Proof. intros w HP. by rewrite py_or_else_environ. Qed.

Lemma run_tasks_keeps {A B : Type} (P : World → Prop) (func : A → Py B)
    (inputs : list A) :
  (∀ x, keeps P (func x)) →
  ∀ order slots w, P w → P (run_tasks func inputs order slots w).2.
Proof.
  intros Hf. induction order as [|i order IH]; intros slots w HP; simpl; [done|].
  destruct (inputs !! i) as [x|]; [|by apply IH].
  destruct (slots !! i) as [[o|]|]; try by apply IH.
  specialize (Hf x w HP). destruct (func x w) as [o w1]. by apply IH.
Qed.

(** A property of the hub and of the supply of object identities is kept
    by what only writes the logs. *)
Lemma hub_well_formed_same_hub (w w' : World) :
  _VERTEXAI_MODEL_HUB w' = _VERTEXAI_MODEL_HUB w →
  next_oid w' = next_oid w →
  hub_well_formed w → hub_well_formed w'.
Proof.
  intros Hh Hn [H1 H2 H3 H4 H5]. split; rewrite ?Hh, ?Hn; done.
Qed.

Lemma keeps_hub_sdk (c : sdk_call) : keeps hub_well_formed (sdk c).
Proof. intros w. by apply hub_well_formed_same_hub. Qed.

Lemma keeps_hub_use_executor (key : string) (workers : Z) :
  keeps hub_well_formed (use_executor key workers).
Proof. intros w. by apply hub_well_formed_same_hub. Qed.

Lemma keeps_hub_get_generative_model (model_id : string) :
  keeps hub_well_formed (get_generative_model model_id).
Proof.
  intros w [H1 H2 H3 H4 H5].
  unfold get_generative_model, GenerativeModel_ctor, store_generative_model.
  run_py.
  destruct (_generative_model_cache (_VERTEXAI_MODEL_HUB w) !! model_id)
    as [h|] eqn:Hlook; simpl; [done|].
  split; simpl.
  - intros m h. destruct (decide (model_id = m)) as [<-|Hne].
    + rewrite lookup_insert_eq. intros [= <-]. simpl. split; [done | lia].
    + rewrite lookup_insert_ne by done. intros Hm.
      destruct (H1 m h Hm). split; [done | lia].
  - intros m h Hm. destruct (H2 m h Hm). split; [done | lia].
  - intros m m' h h'.
    destruct (decide (model_id = m)) as [<-|Hne];
      destruct (decide (model_id = m')) as [<-|Hne']; try done.
    + rewrite lookup_insert_eq, lookup_insert_ne by done.
      intros [= <-] Hm'. simpl. destruct (H1 m' h' Hm'). lia.
    + rewrite lookup_insert_eq, lookup_insert_ne by done.
      intros Hm [= <-]. simpl. destruct (H1 m h Hm). lia.
    + rewrite !lookup_insert_ne by done. apply H3.
  - done.
  - intros m m' h h'. destruct (decide (model_id = m)) as [<-|Hne].
    + rewrite lookup_insert_eq. intros [= <-] Hm'. simpl.
      destruct (H2 m' h' Hm'). lia.
    + rewrite lookup_insert_ne by done. apply H5.
Qed.

Lemma keeps_hub_get_text_generation_model (model_id : string) :
  keeps hub_well_formed (get_text_generation_model model_id).
Proof.
  intros w [H1 H2 H3 H4 H5].
  unfold get_text_generation_model, TextGenerationModel_ctor,
    store_text_generation_model.
  run_py.
  destruct (_text_generation_model_cache (_VERTEXAI_MODEL_HUB w) !! model_id)
    as [h|] eqn:Hlook; simpl; [done|].
  split; simpl.
  - intros m h Hm. destruct (H1 m h Hm). split; [done | lia].
  - intros m h. destruct (decide (model_id = m)) as [<-|Hne].
    + rewrite lookup_insert_eq. intros [= <-]. simpl. split; [done | lia].
    + rewrite lookup_insert_ne by done. intros Hm.
      destruct (H2 m h Hm). split; [done | lia].
  - done.
  - intros m m' h h'.
    destruct (decide (model_id = m)) as [<-|Hne];
      destruct (decide (model_id = m')) as [<-|Hne']; try done.
    + rewrite lookup_insert_eq, lookup_insert_ne by done.
      intros [= <-] Hm'. simpl. destruct (H2 m' h' Hm'). lia.
    + rewrite lookup_insert_eq, lookup_insert_ne by done.
      intros Hm [= <-]. simpl. destruct (H2 m h Hm). lia.
    + rewrite !lookup_insert_ne by done. apply H4.
  - intros m m' h h' Hm. destruct (decide (model_id = m')) as [<-|Hne].
    + rewrite lookup_insert_eq. intros [= <-]. simpl.
      destruct (H1 m h Hm). lia.
    + rewrite lookup_insert_ne by done. intros Hm'. by apply (H5 m m' h h').
Qed.

Lemma keeps_hub_sample_single (self : VertexAI) (prompt : Message) :
  keeps hub_well_formed (_sample_single self prompt).
Proof.
  unfold _sample_single, _sample_generative_model,
    _sample_text_generation_model, call_generate_content, call_predict.
  repeat case_match;
    repeat first
      [ apply keeps_raise | apply keeps_ret | apply keeps_lift
      | apply keeps_hub_sdk | apply keeps_hub_get_generative_model
      | apply keeps_hub_get_text_generation_model
      | apply keeps_bind; [|intros ?] | case_match ].
Qed.

Lemma keeps_hub_api_initialized_body (self : VertexAI) :
  keeps hub_well_formed (_api_initialized_body self).
Proof.
  unfold _api_initialized_body.
  repeat first
    [ apply keeps_raise | apply keeps_ret | apply keeps_py_or_else
    | apply keeps_hub_sdk | apply keeps_bind; [|intros ?] | case_match ].
Qed.

Lemma perform_keeps_hub (a : action) (w : World) :
  hub_well_formed w → hub_well_formed (perform a w).
Proof.
  intros Hw. destruct a; simpl.
  - by apply keeps_hub_get_generative_model.
  - by apply keeps_hub_get_text_generation_model.
  - unfold _api_initialized. destruct (cached_api_initialized self); [done|].
    pose proof (keeps_hub_api_initialized_body self w Hw) as H.
    by destruct (_api_initialized_body self w) as [[v|e] w1].
  - by apply keeps_hub_sample_single.
  - unfold _sample.
    assert (hub_well_formed (_api_initialized self w).2) as Hinit.
    { unfold _api_initialized. destruct (cached_api_initialized self); [done|].
      pose proof (keeps_hub_api_initialized_body self w Hw) as H.
      by destruct (_api_initialized_body self w) as [[v|e] w1]. }
    destruct (_api_initialized self w) as [[[v|e] self1] w1]; simpl in *; [|done].
    destruct (negb v); [done|]. destruct (max_concurrency self1); [|done].
    unfold concurrent_execute.
    pose proof (keeps_hub_use_executor (resource_id self1) a w1 Hinit) as Hu.
    destruct (use_executor (resource_id self1) a w1) as [u w0]. simpl in Hu.
    pose proof (run_tasks_keeps hub_well_formed (_sample_single self1) prompts
                  (keeps_hub_sample_single self1) completion_order
                  (replicate (length prompts) None) w0 Hu) as Hrun.
    by destruct (run_tasks _ _ _ _ _) as [slots w2].
Qed.

(** X12. In a process that starts with an empty hub, whatever the program
    asks of this module, every handle in the hub is filed under its own
    model identifier, is an object that exists, and no two entries of the
    hub, in one cache or across the two, are the same object. *)
Theorem hub_stays_well_formed (env : gmap string string) (actions : list action) :
  hub_well_formed (perform_all actions (World_at_import env)).
Proof.
  assert (hub_well_formed (World_at_import env)) as Hstart.
  { split; simpl; intros *; by rewrite lookup_empty. }
  revert Hstart. generalize (World_at_import env).
  induction actions as [|a actions IH]; intros w Hw; simpl; [done|].
  by apply IH, perform_keeps_hub.
Qed.

(** ** The calls a batch of prompts makes *)

Lemma api_initialized_calls (self : VertexAI) (w : World) :
  provider_requests (_api_initialized self w).2 = provider_requests w
  ∧ sdk_initializations (_api_initialized self w).2
    = (sdk_initializations w
       + match cached_api_initialized self, (_api_initialized self w).1.1 with
         | None, Return _ => 1
         | _, _ => 0
         end)%nat.
Proof.
  unfold _api_initialized. destruct (cached_api_initialized self).
  { simpl. split; [done | lia]. }
  rewrite api_initialized_body_unfold.
  destruct (negb (truthy (py_or (project self) _))).
  { simpl. split; [done | lia]. }
  destruct (negb (truthy (py_or (location self) _))).
  { simpl. split; [done | lia]. }
  unfold provider_requests, sdk_initializations. run_py.
  rewrite !filter_app, !length_app. simpl. split; lia.
Qed.

Lemma keeps_sample_single_initializations (self : VertexAI) (prompt : Message)
    (k : nat) :
  keeps (λ w, sdk_initializations w = k) (_sample_single self prompt).
Proof.
  intros w <-.
  destruct (sample_single_log self prompt w) as (more & Hcalls & Hinit & _).
  unfold sdk_initializations. rewrite Hcalls, filter_app, length_app, Hinit.
  simpl. lia.
Qed.

Lemma sample_initializations (self : VertexAI) (prompts : list Message)
    (order : list nat) (w : World) :
  sdk_initializations (_sample self prompts order w).2
  = sdk_initializations (_api_initialized self w).2.
Proof.
  unfold _sample.
  destruct (_api_initialized self w) as [[[v|e] self1] w1]; simpl; [|done].
  destruct (negb v); [done|]. destruct (max_concurrency self1); [|done].
  unfold concurrent_execute.
  destruct (use_executor (resource_id self1) a w1) as [u w0] eqn:Hu.
  assert (sdk_initializations w0 = sdk_initializations w1) as Hw0.
  { revert Hu. run_py. by intros [= _ <-]. }
  pose proof (run_tasks_keeps (λ w, sdk_initializations w = sdk_initializations w1)
                (_sample_single self1) prompts
                (λ p, keeps_sample_single_initializations self1 p _) order
                (replicate (length prompts) None) w0 Hw0) as Hrun.
  by destruct (run_tasks _ _ _ _ _) as [slots w2].
Qed.

(** X13. A first [_sample] on an instance that is not yet initialized, and
    whose initialization succeeds, calls [vertexai.init] exactly once,
    however many prompts it is given.  Every later [_sample] on the
    instance it leaves, in whatever state the process then is, does not
    call [vertexai.init] again. *)
Theorem sample_initializes_once (self : VertexAI) (prompts : list Message)
    (order : list nat) (w : World) :
  cached_api_initialized self = None →
  (_api_initialized self w).1.1 = Return true →
  sdk_initializations (_sample self prompts order w).2
  = S (sdk_initializations w)
  ∧ ∀ prompts' order' w',
      sdk_initializations
        (_sample (_sample self prompts order w).1.2 prompts' order' w').2
      = sdk_initializations w'.
Proof.
  intros Hnone Hinit. split.
  - rewrite sample_initializations.
    destruct (api_initialized_calls self w) as [_ ->].
    rewrite Hnone, Hinit. lia.
  - intros prompts' order' w'. rewrite sample_initializations.
    assert (cached_api_initialized (_sample self prompts order w).1.2
            = Some true) as Hcached.
    { unfold _sample.
      destruct (_api_initialized self w) as [[[v|e] self1] w1] eqn:Hrun;
        simpl in Hinit; [injection Hinit as -> | discriminate].
      apply api_initialized_returns_cached in Hrun as ->. simpl.
      destruct (max_concurrency _); [|done].
      by destruct (concurrent_execute _ _ _ _ _ _). }
    destruct (api_initialized_calls (_sample self prompts order w).1.2 w')
      as [_ ->].
    rewrite Hcached. lia.
Qed.

Section run_tasks_counting.
Context {A B : Type} (func : A → Py B).

(** A count [μ] read off the process, to which the call on [x] adds
    [cost x]. *)
Variable μ : World → nat.
Variable cost : A → nat.
Hypothesis func_cost : ∀ x w, μ (func x w).2 = (μ w + cost x)%nat.

(** The cost of the calls that have completed. *)
Fixpoint completed_cost (slots : list (option (outcome B))) (inputs : list A)
  : nat :=
  match slots, inputs with
  | Some _ :: slots', x :: inputs' => (cost x + completed_cost slots' inputs')%nat
  | None :: slots', _ :: inputs' => completed_cost slots' inputs'
  | _, _ => 0%nat
  end.

Lemma completed_cost_insert (slots : list (option (outcome B))) :
  ∀ inputs i x o,
    slots !! i = Some None → inputs !! i = Some x →
    completed_cost (<[i:=Some o]> slots) inputs
    = (completed_cost slots inputs + cost x)%nat.
Proof.
  induction slots as [|s slots IH]; intros [|y inputs] [|i] x o Hs Hx;
    simpl in *; try done.
  - injection Hs as ->. injection Hx as ->. lia.
  - destruct s; rewrite (IH _ _ _ _ Hs Hx); lia.
Qed.

Lemma completed_cost_none (inputs : list A) (k : nat) :
  completed_cost (replicate k None) inputs = 0%nat.
Proof.
  revert inputs. induction k as [|k IH]; intros [|x inputs]; simpl; auto.
Qed.

Lemma completed_cost_le (slots : list (option (outcome B))) :
  ∀ inputs, (completed_cost slots inputs ≤ sum_list (cost <$> inputs))%nat.
Proof.
  induction slots as [|s slots IH]; intros [|x inputs]; csimpl; try lia.
  - destruct s; lia.
  - specialize (IH inputs). destruct s; lia.
Qed.

Lemma completed_cost_all (slots : list (option (outcome B))) :
  ∀ inputs,
    length slots = length inputs →
    (∀ i, (i < length inputs)%nat → ∃ o, slots !! i = Some (Some o)) →
    completed_cost slots inputs = sum_list (cost <$> inputs).
Proof.
  induction slots as [|s slots IH]; intros [|x inputs] Hlen Hall;
    csimpl in *; try done.
  destruct (Hall 0%nat) as [o Ho]; [lia|]. injection Ho as ->.
  rewrite IH; [done | lia |].
  intros i Hi. apply (Hall (S i)). lia.
Qed.

Lemma run_tasks_cost (inputs : list A) (order : list nat) :
  ∀ slots w,
    (μ (run_tasks func inputs order slots w).2 + completed_cost slots inputs
     = μ w + completed_cost (run_tasks func inputs order slots w).1 inputs)%nat.
Proof.
  induction order as [|i order IH]; intros slots w; simpl; [done|].
  destruct (inputs !! i) as [x|] eqn:Hx; [|apply IH].
  destruct (slots !! i) as [[o|]|] eqn:Hs; try apply IH.
  pose proof (func_cost x w) as Hc. destruct (func x w) as [o w1]. simpl in Hc.
  specialize (IH (<[i:=Some o]> slots) w1).
  rewrite (completed_cost_insert _ _ _ _ o Hs Hx) in IH. lia.
Qed.

Lemma run_tasks_fills (inputs : list A) (order : list nat) :
  ∀ slots w,
    length slots = length inputs →
    length (run_tasks func inputs order slots w).1 = length inputs
    ∧ ∀ i, (i < length inputs)%nat →
           (i ∈ order ∨ ∃ o, slots !! i = Some (Some o)) →
           ∃ o, (run_tasks func inputs order slots w).1 !! i = Some (Some o).
Proof.
  induction order as [|j order IH]; intros slots w Hlen; simpl.
  { split; [done|]. intros i Hi [Hin | Hfilled]; [|done].
    by apply elem_of_nil in Hin. }
  destruct (inputs !! j) as [x|] eqn:Hx.
  - destruct (slots !! j) as [[o|]|] eqn:Hj.
    + destruct (IH slots w Hlen) as [H1 H2]. split; [done|].
      intros i Hi [[-> | Hin]%elem_of_cons | Hfilled]; apply H2; eauto.
    + destruct (func x w) as [o w1].
      destruct (IH (<[j:=Some o]> slots) w1) as [H1 H2].
      { by rewrite length_insert. }
      split; [done|].
      intros i Hi [[-> | Hin]%elem_of_cons | [o' Hfilled]]; apply H2; eauto.
      * right. exists o. apply list_lookup_insert_eq. lia.
      * right. destruct (decide (j = i)) as [->|Hne]; [congruence|].
        exists o'. by rewrite list_lookup_insert_ne.
    + apply lookup_ge_None in Hj. apply lookup_lt_Some in Hx. lia.
  - destruct (IH slots w Hlen) as [H1 H2]. split; [done|].
    intros i Hi [[-> | Hin]%elem_of_cons | Hfilled]; try (apply H2; by eauto).
    apply lookup_ge_None in Hx. lia.
Qed.

End run_tasks_counting.

Lemma sum_list_indicator {A : Type} (b : A → bool) (l : list A) :
  sum_list ((λ x, if b x then 1%nat else 0%nat) <$> l)
  = length (filter (λ x, b x = true) l).
Proof.
  induction l as [|x l IH]; [done|]. rewrite fmap_cons. simpl.
  destruct (b x) eqn:Hb.
  - rewrite filter_cons_True by done. simpl. by rewrite IH.
  - rewrite filter_cons_False by congruence. by rewrite IH.
Qed.

Lemma filter_never {A : Type} (b : A → bool) (l : list A) :
  (∀ x, b x = false) → filter (λ x, b x = true) l = [].
Proof.
  intros Hb. induction l as [|x l IH]; [done|].
  rewrite filter_cons_False; [done|]. by rewrite Hb.
Qed.

Lemma sends_request_same_fields (self : VertexAI) (v : option bool)
    (prompt : Message) :
  sends_request (set_cached_api_initialized self v) prompt
  = sends_request self prompt.
Proof. reflexivity. Qed.

(** X14. Once initialization has succeeded, [_sample] sends at most one
    request to the provider per prompt, and never repeats one.  When the
    calls of all positions complete, the number of requests sent is
    exactly the number of prompts that get as far as a request (at most
    one sample wanted, model in the registry, and on the generative API
    every chunk accepted), whatever the order of completion. *)
Theorem sample_requests (self : VertexAI) (prompts : list Message)
    (order : list nat) (w : World) :
  (_api_initialized self w).1.1 = Return true →
  (provider_requests (_sample self prompts order w).2
   ≤ provider_requests w
     + length (filter (λ p, sends_request self p = true) prompts))%nat
  ∧ ((∀ i, (i < length prompts)%nat → i ∈ order) →
     provider_requests (_sample self prompts order w).2
     = (provider_requests w
        + length (filter (λ p, sends_request self p = true) prompts))%nat).
Proof.
  intros Hinit. unfold _sample.
  destruct (api_initialized_calls self w) as [Hreq _].
  pose proof (api_initialized_same_fields self w) as Hself.
  destruct (_api_initialized self w) as [[[v|e] self1] w1]; cbn [fst snd] in *;
    [injection Hinit as -> | discriminate].
  assert (∀ p, sends_request self1 p = sends_request self p) as Hsends.
  { intros p. destruct Hself as [-> | [v ->]]; [done|].
    apply sends_request_same_fields. }
  cbn [negb]. cbv iota.
  destruct (max_concurrency self1) as [workers|e] eqn:Hmax.
  2:{ assert (filter (λ p, sends_request self p = true) prompts = []) as ->.
      { apply filter_never. intros p.
        rewrite <- Hsends. unfold sends_request. revert Hmax.
        unfold max_concurrency.
        destruct (dict_get SUPPORTED_MODELS_AND_SETTINGS (model self1)); [done|].
        intros _. by rewrite andb_false_r. }
      simpl. split; [lia | intros _; lia]. }
  unfold concurrent_execute.
  destruct (use_executor (resource_id self1) workers w1) as [u w0] eqn:Hu.
  assert (provider_requests w0 = provider_requests w) as Hw0.
  { revert Hu. run_py. intros [= _ <-]. by rewrite <- Hreq. }
  set (cost := λ p, if sends_request self p then 1%nat else 0%nat).
  assert (∀ p w', provider_requests (_sample_single self1 p w').2
                  = (provider_requests w' + cost p)%nat) as Hcost.
  { intros p w'.
    destruct (sample_single_log self1 p w') as (more & Hcalls & _ & Hmore).
    unfold provider_requests, cost.
    by rewrite Hcalls, filter_app, length_app, Hmore, Hsends. }
  pose proof (run_tasks_cost (_sample_single self1) provider_requests cost Hcost
                prompts order (replicate (length prompts) None) w0) as Hrun.
  pose proof (run_tasks_fills (_sample_single self1) prompts order
                (replicate (length prompts) None) w0) as Hfills.
  rewrite completed_cost_none in Hrun.
  destruct (run_tasks _ _ _ _ _) as [slots w2]. cbn [fst snd] in *.
  assert (sum_list (cost <$> prompts)
          = length (filter (λ p, sends_request self p = true) prompts)) as Hsum.
  { unfold cost. apply sum_list_indicator. }
  split.
  - pose proof (completed_cost_le cost slots prompts). lia.
  - intros Hall. destruct Hfills as [Hlen Hfilled].
    { by rewrite length_replicate. }
    rewrite (completed_cost_all cost slots prompts Hlen) in Hrun; [lia|].
    intros i Hi. apply Hfilled; [done | left; by apply Hall].
Qed.

Lemma run_tasks_no_inputs {A B : Type} (func : A → Py B) (order : list nat) :
  ∀ slots w, run_tasks func [] order slots w = (slots, w).
Proof. induction order as [|i order IH]; intros slots w; simpl; auto. Qed.

(** X15. Given no prompt, an adapter whose initialization succeeds returns
    the empty list, for every completion order.  It has initialized the
    SDK if it had to and has named its executor, and nothing else: the hub
    is not asked and no request is sent. *)
Theorem sample_of_no_prompts (self : VertexAI) (order : list nat) (w : World)
    (workers : Z) :
  (_api_initialized self w).1.1 = Return true →
  max_concurrency self = Return workers →
  _sample self [] order w
  = (Some (Return []), (_api_initialized self w).1.2,
     (use_executor (resource_id self) workers (_api_initialized self w).2).2).
Proof.
  intros Hinit Hmax. unfold _sample.
  pose proof (api_initialized_same_fields self w) as Hself.
  destruct (_api_initialized self w) as [[[v|e] self1] w1]; cbn [fst snd] in *;
    [injection Hinit as -> | discriminate].
  assert (max_concurrency self1 = Return workers
          ∧ resource_id self1 = resource_id self) as [-> ->].
  { by destruct Hself as [-> | [v ->]]. }
  cbn [negb]. cbv iota. unfold concurrent_execute.
  destruct (use_executor (resource_id self) workers w1) as [u w0].
  by rewrite run_tasks_no_inputs.
Qed.

End sampling.

(** * The properties on sample data *)

(** The environment variables on the sample environments. *)
Lemma demo_environ_unset :
  unresolved None ((∅ : gmap string string) !! "VERTEXAI_PROJECT").
Proof.
  intros v [Hv [H | [_ H]]]; [discriminate H|].
  rewrite lookup_empty in H. discriminate H.
Defined.

Lemma demo_environ_project :
  resolves_to None (demo_environ !! "VERTEXAI_PROJECT") "my-project".
Proof.
  split; [discriminate|]. right. split; [by left|]. by vm_compute.
Defined.

Lemma demo_environ_location :
  resolves_to None (demo_environ !! "VERTEXAI_LOCATION") "us-central1".
Proof.
  split; [discriminate|]. right. split; [by left|]. by vm_compute.
Defined.

(** An image prompt is refused by an adapter that is not multimodal and
    built by one that is. *)
Lemma content_from_message_policy_witness :
  (∃ c, _content_from_message demo_repr
          (demo_adapter "gemini-1.0-pro-vision" false 1) demo_image_prompt
        = Raise (ValueError ("Unsupported modality: " +:+ demo_repr c)))
  ∧ ∃ parts, _content_from_message demo_repr
               (demo_adapter "gemini-1.0-pro-vision" true 1) demo_image_prompt
             = Return parts.
Proof.
  split.
  - pose proof (content_from_message_policy demo_repr
                  (demo_adapter "gemini-1.0-pro-vision" false 1)
                  demo_image_prompt) as [H _].
    change (_content_from_message demo_repr
              (demo_adapter "gemini-1.0-pro-vision" false 1) demo_image_prompt)
      with (@Raise (list Part) (ValueError "Unsupported modality: Image(...)"))
      in H.
    destruct H as (before & c & after & _ & _ & _ & H).
    exists c. by rewrite <- H.
  - apply (content_from_message_policy demo_repr
             (demo_adapter "gemini-1.0-pro-vision" true 1) demo_image_prompt).
    repeat constructor.
Defined.

(** With nothing configured initialization raises the project error and
    touches nothing; with both variables set it calls [vertexai.init]. *)
Lemma api_initialized_resolution_witness :
  _api_initialized (demo_unconfigured "text-bison") (World_at_import ∅)
  = (Raise (ValueError project_missing_message),
     demo_unconfigured "text-bison", World_at_import ∅)
  ∧ (_api_initialized (demo_unconfigured "text-bison")
       (World_at_import demo_environ)).1.1 = Return true
  ∧ sdk_calls (_api_initialized (demo_unconfigured "text-bison")
                 (World_at_import demo_environ)).2
    = [vertexai_init "my-project" "us-central1" None].
Proof.
  split.
  - destruct (api_initialized_resolution (demo_unconfigured "text-bison")
                (World_at_import ∅) eq_refl) as (_ & H & _).
    apply H, demo_environ_unset.
  - destruct (api_initialized_resolution (demo_unconfigured "text-bison")
                (World_at_import demo_environ) eq_refl) as (H & _).
    rewrite (H _ _ demo_environ_project demo_environ_location).
    by split.
Defined.

(** A failed initialization is retried once the variables are set. *)
Lemma api_initialized_caches_only_success_witness :
  (_api_initialized (demo_unconfigured "text-bison") (World_at_import ∅)).1.1
  = Raise (ValueError project_missing_message)
  ∧ (_api_initialized (demo_unconfigured "text-bison")
       (World_at_import demo_environ)).1.1 = Return true.
Proof.
  split; [by vm_compute|].
  destruct (api_initialized_caches_only_success (demo_unconfigured "text-bison")
              (World_at_import ∅) eq_refl) as (H & _).
  destruct (H (ValueError project_missing_message)
              (demo_unconfigured "text-bison") (World_at_import ∅))
    as (_ & _ & Hretry); [by vm_compute|].
  apply (Hretry (World_at_import demo_environ) "my-project" "us-central1").
  - apply demo_environ_project.
  - apply demo_environ_location.
Defined.

(** Two samples requested: the error, and an untouched process. *)
Lemma sample_single_rejects_n_above_one_witness :
  (_sample_single demo_repr demo_generate_content demo_predict
     (demo_adapter "gemini-1.0-pro" false 2) (demo_prompt "Hello")
     (World_at_import ∅)).1
  = Raise (ValueError "`n` greater than 1 is not supported: 2.")
  ∧ (_sample_single demo_repr demo_generate_content demo_predict
       (demo_adapter "gemini-1.0-pro" false 2) (demo_prompt "Hello")
       (World_at_import ∅)).2
    = World_at_import ∅.
Proof.
  destruct (sample_single_rejects_n_above_one demo_repr demo_generate_content
              demo_predict (demo_adapter "gemini-1.0-pro" false 2)
              (demo_prompt "Hello") (World_at_import ∅))
    as (H1 & H2 & _); [simpl; lia|].
  split; [exact H1 | exact H2].
Defined.


(** [text-bison] on the prompt [Hello]: one sample, no usage record. *)
Lemma response_translation_witness :
  (_sample_text_generation_model demo_predict
     (demo_adapter "text-bison" false 1) (demo_prompt "Hello")
     (World_at_import ∅)).1
  = Return {| samples := [ {| response := {| ai_text := "Hello" |};
                              score := S754_zero false |} ];
              usage := None |}.
Proof.
  destruct (response_translation demo_repr demo_generate_content demo_predict
              (demo_adapter "text-bison" false 1) (demo_prompt "Hello")
              (World_at_import ∅)) as (_ & H & _).
  apply (H {| tr_text := "Hello" |}). reflexivity.
Defined.



(** The handle of the first call is still the one returned after other
    handles were built and prompts were sampled; and three calls made one
    after the other from an empty hub build one handle. *)
Lemma hub_memoizes_witness :
  (get_generative_model "gemini-1.0-pro"
     (perform_all demo_repr demo_generate_content demo_predict
        demo_rate_to_max_concurrency
        [do_get_text_generation_model "text-bison";
         do_sample_single (demo_adapter "gemini-1.0-pro" false 1)
           (demo_prompt "a");
         do_get_generative_model "gemini-1.5-pro-preview-0409"]
        (get_generative_model "gemini-1.0-pro" (World_at_import ∅)).2)).1
  = Return {| gm_model_name := "gemini-1.0-pro"; gm_oid := 0 |}
  ∧ generative_models_built "gemini-1.0-pro"
      (perform_all demo_repr demo_generate_content demo_predict
         demo_rate_to_max_concurrency
         [do_get_text_generation_model "text-bison";
          do_sample_single (demo_adapter "gemini-1.0-pro" false 1)
            (demo_prompt "a");
          do_get_generative_model "gemini-1.5-pro-preview-0409"]
         (World_at_import ∅))
    = 1%nat.
Proof.
  destruct (hub_memoizes demo_repr demo_generate_content demo_predict
              demo_rate_to_max_concurrency "gemini-1.0-pro"
              [do_get_text_generation_model "text-bison";
               do_sample_single (demo_adapter "gemini-1.0-pro" false 1)
                 (demo_prompt "a");
               do_get_generative_model "gemini-1.5-pro-preview-0409"]
              (World_at_import ∅)) as (_ & _ & _ & Hsame & _ & _ & _ & _ & Hbuilt).
  split.
  - rewrite Hsame. reflexivity.
  - destruct (Hbuilt ltac:(repeat constructor) ∅ "gemini-1.0-pro")
      as (Hcount & _).
    rewrite Hcount. by vm_compute.
Defined.

(** C3 as the specification words it does not hold: sampling with the
    [text-bison] adapter uses the executor keyed [VertexAI(text-bison)],
    which is not the model identifier [text-bison]. *)
Lemma resource_key_is_not_the_model_identifier :
  executor_uses
    (_sample demo_repr demo_generate_content demo_predict
       demo_rate_to_max_concurrency (demo_adapter "text-bison" false 1)
       [demo_prompt "Hello"] [0%nat] (World_at_import ∅)).2
  = [("VertexAI(text-bison)", 26)]
  ∧ "VertexAI(text-bison)" ≠ model (demo_adapter "text-bison" false 1).
Proof. split; [by vm_compute | discriminate]. Qed.

(** The executor used by the [text-bison] adapter. *)
Lemma resource_key_is_model_id_witness :
  executor_uses
    (_sample demo_repr demo_generate_content demo_predict
       demo_rate_to_max_concurrency (demo_adapter "text-bison" false 1)
       [demo_prompt "Hello"] [0%nat] (World_at_import ∅)).2
  = [("VertexAI(text-bison)", 26)].
Proof.
  destruct (resource_key_is_model_id demo_repr demo_generate_content
              demo_predict demo_rate_to_max_concurrency
              (demo_adapter "text-bison" false 1)) as (_ & H & _).
  apply (H [demo_prompt "Hello"] [0%nat] (World_at_import ∅) 26);
    by vm_compute.
Defined.

(** Three prompts whose calls complete in the order 2, 0, 1 come back in
    the order of the prompts. *)
Lemma sample_results_in_input_order_witness :
  (_sample demo_repr demo_generate_content demo_predict
     demo_rate_to_max_concurrency (demo_adapter "text-bison" false 1)
     [demo_prompt "a"; demo_prompt "b"; demo_prompt "c"] [2; 0; 1]%nat
     (World_at_import ∅)).1.1
  = Some (Return
            [ {| samples := [ {| response := {| ai_text := "a" |};
                                 score := S754_zero false |} ];
                 usage := None |};
              {| samples := [ {| response := {| ai_text := "b" |};
                                 score := S754_zero false |} ];
                 usage := None |};
              {| samples := [ {| response := {| ai_text := "c" |};
                                 score := S754_zero false |} ];
                 usage := None |} ]).
Proof.
  destruct (sample_results_in_input_order demo_repr demo_generate_content
              demo_predict demo_rate_to_max_concurrency
              (demo_adapter "text-bison" false 1)
              [demo_prompt "a"; demo_prompt "b"; demo_prompt "c"]
              [2; 0; 1]%nat (World_at_import ∅)) as [H _].
  - intros i Hi. simpl in Hi.
    destruct i as [|[|[|i]]]; [set_solver .. | lia].
  - by vm_compute.
  - by vm_compute.
  - rewrite H. by vm_compute.
Defined.

(** * The further properties on sample data *)

(** An adapter initialized while the variables were set goes on returning
    [True]; rebound, it raises once they are gone. *)
Lemma rebinding_reinitializes_witness :
  (_api_initialized
     (set_cached_api_initialized (demo_unconfigured "text-bison") (Some true))
     (World_at_import ∅)).1.1 = Return true
  ∧ (_api_initialized
       (_on_bound (set_cached_api_initialized (demo_unconfigured "text-bison")
                     (Some true)))
       (World_at_import ∅)).1.1
    = Raise (ValueError project_missing_message).
Proof.
  destruct (rebinding_reinitializes (demo_unconfigured "text-bison")
              (set_cached_api_initialized (demo_unconfigured "text-bison")
                 (Some true))
              (World_at_import demo_environ)
              (_api_initialized (demo_unconfigured "text-bison")
                 (World_at_import demo_environ)).2
              (World_at_import ∅)) as (H1 & H2 & _); [by vm_compute|].
  split; [by rewrite H1|]. by rewrite (H2 demo_environ_unset).
Defined.

(** Sampling on an adapter without project: the error, nothing done. *)
Lemma sample_raises_configuration_error_witness :
  _sample demo_repr demo_generate_content demo_predict
    demo_rate_to_max_concurrency (demo_unconfigured "text-bison")
    [demo_prompt "Hello"] [0%nat] (World_at_import ∅)
  = (Some (Raise (ValueError project_missing_message)),
     demo_unconfigured "text-bison", World_at_import ∅).
Proof.
  destruct (sample_raises_configuration_error demo_repr demo_generate_content
              demo_predict demo_rate_to_max_concurrency
              (demo_unconfigured "text-bison") [demo_prompt "Hello"] [0%nat]
              (World_at_import ∅) eq_refl) as [H _].
  apply H, demo_environ_unset.
Defined.

(** A multimodal adapter sends one request for the image prompt. *)
Lemma generative_request_sent_witness :
  provider_requests
    (_sample_generative_model demo_repr demo_generate_content
       (demo_adapter "gemini-1.0-pro-vision" true 1) demo_image_prompt
       (World_at_import ∅)).2
  = 1%nat.
Proof.
  destruct (generative_request_sent demo_repr demo_generate_content
              (demo_adapter "gemini-1.0-pro-vision" true 1) demo_image_prompt
              (World_at_import ∅)
              [TextPart "what is this?"; Image_from_bytes [Byte.x89; Byte.x50]]
              eq_refl) as [_ H].
  exact H.
Defined.

(** An adapter that is not multimodal sends none, but has its handle. *)
Lemma unsupported_modality_after_handle_witness :
  provider_requests
    (_sample_generative_model demo_repr demo_generate_content
       (demo_adapter "gemini-1.0-pro" false 1) demo_image_prompt
       (World_at_import ∅)).2
  = 0%nat
  ∧ sdk_calls
      (_sample_generative_model demo_repr demo_generate_content
         (demo_adapter "gemini-1.0-pro" false 1) demo_image_prompt
         (World_at_import ∅)).2
    = [GenerativeModel_new "gemini-1.0-pro" 0].
Proof.
  destruct (unsupported_modality_after_handle demo_repr demo_generate_content
              (demo_adapter "gemini-1.0-pro" false 1) demo_image_prompt
              (World_at_import ∅)
              (ValueError "Unsupported modality: Image(...)") eq_refl)
    as (_ & H1 & H2 & _).
  split; [exact H1 | exact H2].
Defined.

(** The request the [text-bison] adapter sends for [Hello]. *)
Lemma text_generation_request_sent_witness :
  provider_requests
    (_sample_text_generation_model demo_predict
       (demo_adapter "text-bison" false 1) (demo_prompt "Hello")
       (World_at_import ∅)).2
  = 1%nat.
Proof.
  destruct (text_generation_request_sent demo_predict
              (demo_adapter "text-bison" false 1) (demo_prompt "Hello")
              (World_at_import ∅)) as (_ & H & _).
  exact H.
Defined.

(** On [text-bison] the image prompt is sampled as its text. *)
Lemma text_path_ignores_chunks_witness :
  _sample_single demo_repr demo_generate_content demo_predict
    (demo_adapter "text-bison" true 1) demo_image_prompt (World_at_import ∅)
  = _sample_single demo_repr demo_generate_content demo_predict
      (demo_adapter "text-bison" false 1) (demo_prompt "what is this?")
      (World_at_import ∅).
Proof.
  apply (text_path_ignores_chunks demo_repr demo_generate_content demo_predict
           (demo_adapter "text-bison" false 1) (demo_adapter "text-bison" true 1)
           (demo_prompt "what is this?") demo_image_prompt
           {| api := "palm"; rpm := 1600 |} (World_at_import ∅));
    reflexivity.
Defined.

(** One request for a text prompt, none when two samples are wanted. *)
Lemma sample_single_requests_witness :
  provider_requests
    (_sample_single demo_repr demo_generate_content demo_predict
       (demo_adapter "gemini-1.0-pro" false 1) (demo_prompt "Hello")
       (World_at_import ∅)).2 = 1%nat
  ∧ provider_requests
      (_sample_single demo_repr demo_generate_content demo_predict
         (demo_adapter "gemini-1.0-pro" false 2) (demo_prompt "Hello")
         (World_at_import ∅)).2 = 0%nat.
Proof.
  split.
  - destruct (sample_single_requests demo_repr demo_generate_content demo_predict
                (demo_adapter "gemini-1.0-pro" false 1) (demo_prompt "Hello")
                (World_at_import ∅)) as [H _].
    exact H.
  - destruct (sample_single_requests demo_repr demo_generate_content demo_predict
                (demo_adapter "gemini-1.0-pro" false 2) (demo_prompt "Hello")
                (World_at_import ∅)) as [H _].
    exact H.
Defined.

(** The image prompt is its text chunk followed by its image chunk. *)
Lemma content_of_appended_chunks_witness :
  _content_from_message demo_repr (demo_adapter "gemini-1.0-pro-vision" true 1)
    demo_image_prompt
  = Return [TextPart "what is this?"; Image_from_bytes [Byte.x89; Byte.x50]].
Proof.
  destruct (content_of_appended_chunks demo_repr
              (demo_adapter "gemini-1.0-pro-vision" true 1) demo_image_prompt
              (demo_prompt "what is this?")
              {| text := ""; chunk := [ImageChunk [Byte.x89; Byte.x50]] |}
              eq_refl) as [H _].
  exact H.
Defined.

(** What a text-only adapter builds, a multimodal one builds too. *)
Lemma text_only_content_for_every_adapter_witness :
  _content_from_message demo_repr (demo_adapter "gemini-1.0-pro-vision" true 1)
    (demo_prompt "Hello")
  = Return [TextPart "Hello"].
Proof.
  destruct (text_only_content_for_every_adapter demo_repr
              (demo_adapter "gemini-1.0-pro" false 1) (demo_prompt "Hello")
              [TextPart "Hello"] eq_refl eq_refl) as [_ H].
  apply H.
Defined.

(** Getting a Gemini handle leaves a cached [text-bison] handle alone. *)
Lemma hub_getters_frame_witness :
  _text_generation_model_cache
    (_VERTEXAI_MODEL_HUB
       (get_generative_model "gemini-1.0-pro"
          (get_text_generation_model "text-bison" (World_at_import ∅)).2).2)
    !! "text-bison"
  = Some {| tm_model_id := "text-bison"; tm_oid := 0 |}.
Proof.
  destruct (hub_getters_frame "gemini-1.0-pro"
              (get_text_generation_model "text-bison" (World_at_import ∅)).2)
    as [[H _] _].
  rewrite H. by vm_compute.
Defined.

(** The hub after handles of both families were built. *)
Lemma hub_stays_well_formed_witness :
  hub_well_formed
    (perform_all demo_repr demo_generate_content demo_predict
       demo_rate_to_max_concurrency
       [do_get_text_generation_model "text-bison";
        do_sample (demo_adapter "gemini-1.0-pro" false 1)
          [demo_prompt "a"; demo_prompt "b"] [1; 0]%nat]
       (World_at_import ∅)).
Proof.
  exact (hub_stays_well_formed demo_repr demo_generate_content demo_predict
           demo_rate_to_max_concurrency ∅
           [do_get_text_generation_model "text-bison";
            do_sample (demo_adapter "gemini-1.0-pro" false 1)
              [demo_prompt "a"; demo_prompt "b"] [1; 0]%nat]).
Defined.

(** Three prompts, one initialization. *)
Lemma sample_initializes_once_witness :
  sdk_initializations
    (_sample demo_repr demo_generate_content demo_predict
       demo_rate_to_max_concurrency (demo_adapter "text-bison" false 1)
       [demo_prompt "a"; demo_prompt "b"; demo_prompt "c"] [2; 0; 1]%nat
       (World_at_import ∅)).2
  = 1%nat.
Proof.
  destruct (sample_initializes_once demo_repr demo_generate_content demo_predict
              demo_rate_to_max_concurrency (demo_adapter "text-bison" false 1)
              [demo_prompt "a"; demo_prompt "b"; demo_prompt "c"] [2; 0; 1]%nat
              (World_at_import ∅) eq_refl) as [H _]; [by vm_compute|].
  exact H.
Defined.

(** Of three prompts, the two without image are sent by an adapter that
    is not multimodal. *)
Lemma sample_requests_witness :
  provider_requests
    (_sample demo_repr demo_generate_content demo_predict
       demo_rate_to_max_concurrency (demo_adapter "gemini-1.0-pro" false 1)
       [demo_prompt "a"; demo_image_prompt; demo_prompt "c"] [2; 0; 1]%nat
       (World_at_import ∅)).2
  = 2%nat.
Proof.
  destruct (sample_requests demo_repr demo_generate_content demo_predict
              demo_rate_to_max_concurrency
              (demo_adapter "gemini-1.0-pro" false 1)
              [demo_prompt "a"; demo_image_prompt; demo_prompt "c"]
              [2; 0; 1]%nat (World_at_import ∅)) as [_ H]; [by vm_compute|].
  rewrite H; [by vm_compute|].
  intros i Hi. simpl in Hi. destruct i as [|[|[|i]]]; [set_solver .. | lia].
Defined.

(** No prompt: the empty list. *)
Lemma sample_of_no_prompts_witness :
  (_sample demo_repr demo_generate_content demo_predict
     demo_rate_to_max_concurrency (demo_adapter "text-bison" false 1)
     [] [3; 1]%nat (World_at_import ∅)).1.1
  = Some (Return []).
Proof.
  rewrite (sample_of_no_prompts demo_repr demo_generate_content demo_predict
             demo_rate_to_max_concurrency (demo_adapter "text-bison" false 1)
             [3; 1]%nat (World_at_import ∅) 26); by vm_compute.
Defined.

(** The image prompt on an adapter that is not multimodal: the error is one
    of those listed. *)
Lemma sample_errors_witness :
  (∃ workers,
     max_concurrency demo_rate_to_max_concurrency
       (demo_adapter "gemini-1.0-pro" false 1) = Return workers)
  ∧ (_sample demo_repr demo_generate_content demo_predict
       demo_rate_to_max_concurrency (demo_adapter "gemini-1.0-pro" false 1)
       [demo_prompt "a"; demo_image_prompt] [1; 0]%nat (World_at_import ∅)).1.1
    = Some (Raise (ValueError "Unsupported modality: Image(...)"))
  ∧ ∀ key, ValueError "Unsupported modality: Image(...)" ≠ KeyError key.
Proof.
  destruct (sample_errors demo_repr demo_generate_content demo_predict
              demo_rate_to_max_concurrency
              (demo_adapter "gemini-1.0-pro" false 1)
              [demo_prompt "a"; demo_image_prompt] [1; 0]%nat
              (World_at_import ∅)
              (ValueError "Unsupported modality: Image(...)")
              eq_refl ltac:(discriminate)) as [Hmax Herr].
  split; [exact Hmax|]. split; [by vm_compute|].
  destruct Herr as (_ & Hkey & _); [by vm_compute | exact Hkey].
Defined.
